(** * simple-bridge: a learning bridge with a spanning-tree election

    A shallow embedding of [bridge.py] and the properties of its root
    election, designated-port decision, learning table and liveness timer.

    The Python program keeps its state in three objects that are mutated in
    place ([bridgeInfo], the list [PORTS], the dict [ADDR_TABLE]) and talks to
    the outside through [print] and [socket.sendto].  The embedding threads
    one record, [world], holding these objects together with the two output
    streams, through a state-and-exception monad: a Python exception stops
    the computation and leaves the objects as they were mutated so far.

    Frames are decoded JSON, so the values the handlers inspect are
    dynamically typed; [pyval] covers None, booleans, integers, strings,
    lists and string-keyed dicts (JSON numbers with a fraction or exponent
    are outside the model). *)

From Stdlib Require Import ZArith List String Ascii Bool Lia.
Import ListNotations.
Local Open Scope string_scope.
Local Open Scope list_scope.
Local Open Scope Z_scope.

Set Implicit Arguments.
Set Warnings "-register-all".

(** ** Python values *)

Inductive pyval : Type :=
| PNone
| PBool (b : bool)
| PInt (z : Z)
| PStr (s : string)
| PList (l : list pyval)
| PDict (d : list (string * pyval)).

(** The exceptions the program can raise.  [ValueError] also stands for its
    subclasses [json.JSONDecodeError] and [UnicodeDecodeError]; a third
    subclass, [UnicodeEncodeError], which [print] raises, is kept apart, and
    so is [RecursionError], which is no [ValueError] and which [json.loads]
    raises on a payload nested too deep. *)
Inductive exn : Type :=
| KeyError (key : pyval)
| TypeError
| ValueError
| IndexError
| NameError (name : string)
| AttributeError (attr : string)
| RecursionError
| UnicodeEncodeError.

Inductive result (A : Type) : Type :=
| Ok (a : A)
| Raise (e : exn).

Arguments Ok {A} a.
Arguments Raise {A} e.

Definition rbind {A B} (r : result A) (k : A -> result B) : result B :=
  match r with
  | Ok a => k a
  | Raise e => Raise e
  end.

(** [bool] is a subclass of [int]: [True] counts as 1 and [False] as 0 in
    every comparison and in arithmetic. *)
Definition as_number (v : pyval) : option Z :=
  match v with
  | PBool b => Some (if b then 1 else 0)
  | PInt z => Some z
  | _ => None
  end.

Fixpoint forall2b {A B} (f : A -> B -> bool) (l1 : list A) (l2 : list B) : bool :=
  match l1, l2 with
  | [], [] => true
  | x :: xs, y :: ys => f x y && forall2b f xs ys
  | _, _ => false
  end.

(** [a == b].  Never raises on these values.  Two dicts are equal when they
    have as many keys and every binding of the first is one of the second
    (the keys of a dict are pairwise distinct). *)
Fixpoint py_eq (a b : pyval) {struct a} : bool :=
  match a, b with
  | PNone, PNone => true
  | PStr s, PStr t => String.eqb s t
  | PList l1, PList l2 => forall2b py_eq l1 l2
  | PDict d1, PDict d2 =>
      Nat.eqb (List.length d1) (List.length d2)
      && forallb (fun kv => existsb (fun kv' => String.eqb (fst kv) (fst kv') && py_eq (snd kv) (snd kv')) d2) d1
  | (PBool _ | PInt _), (PBool _ | PInt _) =>
      match as_number a, as_number b with
      | Some x, Some y => Z.eqb x y
      | _, _ => false
      end
  | _, _ => false
  end.

Inductive order_op : Type := OpLt | OpGe.

Definition int_op (op : order_op) (x y : Z) : bool :=
  match op with OpLt => Z.ltb x y | OpGe => Z.leb y x end.

Definition str_op (op : order_op) (s t : string) : bool :=
  match op with OpLt => String.ltb s t | OpGe => String.leb t s end.

(** [a < b] and [a >= b].  Numbers compare with numbers, strings with strings
    (code point order, which is byte order on UTF-8), lists with lists (the
    first pair of unequal items decides, else the lengths); every other pair
    of operands raises [TypeError]. *)
Fixpoint py_cmp (op : order_op) (a b : pyval) {struct a} : result bool :=
  match a, b with
  | PStr s, PStr t => Ok (str_op op s t)
  | PList l1, PList l2 =>
      (fix items (l1 l2 : list pyval) {struct l1} : result bool :=
         match l1, l2 with
         | x :: xs, y :: ys => if py_eq x y then items xs ys else py_cmp op x y
         | _, _ => Ok (int_op op (Z.of_nat (List.length l1)) (Z.of_nat (List.length l2)))
         end) l1 l2
  | (PBool _ | PInt _), (PBool _ | PInt _) =>
      match as_number a, as_number b with
      | Some x, Some y => Ok (int_op op x y)
      | _, _ => Raise TypeError
      end
  | _, _ => Raise TypeError
  end.

Definition py_lt : pyval -> pyval -> result bool := py_cmp OpLt.
Definition py_ge : pyval -> pyval -> result bool := py_cmp OpGe.

Fixpoint lookup (k : string) (d : list (string * pyval)) : option pyval :=
  match d with
  | [] => None
  | (k', v) :: rest => if String.eqb k k' then Some v else lookup k rest
  end.

(** [v[k]] for a string [k]: only a dict can be subscripted by a string. *)
Definition py_getitem (v : pyval) (k : string) : result pyval :=
  match v with
  | PDict d =>
      match lookup k d with
      | Some x => Ok x
      | None => Raise (KeyError (PStr k))
      end
  | _ => Raise TypeError
  end.

(** ["%d" % v]: a number is required. *)
Definition py_format_d (v : pyval) : result Z :=
  match as_number v with
  | Some z => Ok z
  | None => Raise TypeError
  end.

(** [v + 1]: defined on numbers; [str + int], [list + int] and the rest
    raise [TypeError]. *)
Definition py_add1 (v : pyval) : result Z :=
  match as_number v with
  | Some z => Ok (z + 1)
  | None => Raise TypeError
  end.

(** Lists and dicts cannot be keys of a dict. *)
Definition hashable (v : pyval) : bool :=
  match v with
  | PList _ | PDict _ => false
  | _ => true
  end.

(** A dict with arbitrary hashable keys, in insertion order ([ADDR_TABLE]
    maps a source identifier to a port index). *)
Definition table : Type := list (pyval * nat).

Fixpoint table_get (k : pyval) (t : table) : option nat :=
  match t with
  | [] => None
  | (k', p) :: rest => if py_eq k k' then Some p else table_get k rest
  end.

(** [k in t] *)
Definition table_contains (k : pyval) (t : table) : result bool :=
  if hashable k
  then Ok (match table_get k t with Some _ => true | None => false end)
  else Raise TypeError.

(** [t[k] = p] *)
Fixpoint table_put (k : pyval) (p : nat) (t : table) : table :=
  match t with
  | [] => [(k, p)]
  | (k', p') :: rest =>
      if py_eq k k' then (k', p) :: rest else (k', p') :: table_put k p rest
  end.

Definition table_setitem (k : pyval) (p : nat) (t : table) : result table :=
  if hashable k then Ok (table_put k p t) else Raise TypeError.

(** [t[k]] *)
Definition table_getitem (k : pyval) (t : table) : result nat :=
  if hashable k
  then match table_get k t with
       | Some p => Ok p
       | None => Raise (KeyError k)
       end
  else Raise TypeError.

(** ** Output streams *)

(** What a [print] call writes, with the arguments of its format string. *)
Inductive line : Type :=
| Bridge_starting_up
| Designated_port (id : nat)
| Disabled_port (id : nat)
| New_root (root : pyval) (cost : Z)
| Root_port (port : nat)
| Root_port_none
| Received (source : pyval) (msg_id : Z) (port : nat) (dest : pyval)
| Forwarding (source : pyval) (msg_id : Z) (port : nat)
| Not_forwarding (source : pyval) (msg_id : Z)
| Broadcasting (source : pyval) (msg_id : Z).

(** Text is held as its UTF-8 bytes.  A lone surrogate, which [json.loads]
    accepts inside a string and which the command line can produce, has no
    UTF-8 form; it is held as the three bytes [ED A0..BF 80..BF] of the
    generalised form.  So a text can be written to a UTF-8 [stdout] when no
    byte [ED] is followed by a byte from [A0] on. *)
Fixpoint encodable (s : string) : bool :=
  match s with
  | String a (String b _ as rest) =>
      if Nat.eqb (nat_of_ascii a) 237 && Nat.leb 160 (nat_of_ascii b)
      then false
      else encodable rest
  | _ => true
  end.

(** Whether [print("%s" % v)] can write [v]: a str is written as it is; the
    other values are written through [repr], which escapes what cannot be
    encoded. *)
Definition printable (v : pyval) : bool :=
  match v with
  | PStr s => encodable s
  | _ => true
  end.

(** Whether [print] can write a line: the lines that hold only numbers
    always can. *)
Definition writable (l : line) : bool :=
  match l with
  | New_root root _ => printable root
  | Received source _ _ dest => printable source && printable dest
  | Forwarding source _ _ => printable source
  | Not_forwarding source _ => printable source
  | Broadcasting source _ => printable source
  | _ => true
  end.

(** The bytes handed to a socket: a datagram relayed as it was received, or
    [json.dumps(v).encode('utf-8')] for a value built by the bridge. *)
Inductive payload : Type :=
| Bytes (raw : string)
| Dumps (v : pyval).

(** One [socket.sendto(data, ('localhost', lan_port))], made on the socket of
    the Port whose id is [via]. *)
Record sendto : Type := Sendto {
  via : nat;
  to : Z;
  sent : payload }.

(** ** class BridgeInfo *)

Module BridgeInfo.

Record t : Type := Build {
  bridge_id : string;
  root_port : Z;
  root_id : pyval;
  cost : Z;
  next_hop : pyval;
  unconfirmed : Z }.

(** [BridgeInfo.__init__] *)
Definition init (bridge_id : string) : t :=
  {| bridge_id := bridge_id;
     root_port := -1;
     root_id := PStr bridge_id;
     cost := 0;
     next_hop := PStr bridge_id;
     unconfirmed := 0 |}.

Definition get_bridge_id (self : t) : string := bridge_id self.
Definition get_root_port (self : t) : Z := root_port self.
Definition get_root_id (self : t) : pyval := root_id self.
Definition get_cost (self : t) : Z := cost self.
Definition get_next_hop (self : t) : pyval := next_hop self.
Definition get_unconfirmed (self : t) : Z := unconfirmed self.

Definition set_root_port (port : Z) (self : t) : t :=
  {| bridge_id := bridge_id self; root_port := port; root_id := root_id self;
     cost := cost self; next_hop := next_hop self; unconfirmed := unconfirmed self |}.

Definition set_root_id (id : pyval) (self : t) : t :=
  {| bridge_id := bridge_id self; root_port := root_port self; root_id := id;
     cost := cost self; next_hop := next_hop self; unconfirmed := unconfirmed self |}.

Definition set_cost (new_cost : Z) (self : t) : t :=
  {| bridge_id := bridge_id self; root_port := root_port self; root_id := root_id self;
     cost := new_cost; next_hop := next_hop self; unconfirmed := unconfirmed self |}.

Definition set_next_hop (hop : pyval) (self : t) : t :=
  {| bridge_id := bridge_id self; root_port := root_port self; root_id := root_id self;
     cost := cost self; next_hop := hop; unconfirmed := unconfirmed self |}.

Definition increase_unconfirmed (self : t) : t :=
  {| bridge_id := bridge_id self; root_port := root_port self; root_id := root_id self;
     cost := cost self; next_hop := next_hop self; unconfirmed := unconfirmed self + 1 |}.

Definition reset_unconfirmed (self : t) : t :=
  {| bridge_id := bridge_id self; root_port := root_port self; root_id := root_id self;
     cost := cost self; next_hop := next_hop self; unconfirmed := 0 |}.

End BridgeInfo.

(** ** class Port

    The socket of a Port is not part of the model: a send is recorded on the
    [wire] stream with the id of the Port that made it. *)

Module Port.

Record t : Type := Build {
  id : nat;
  lan_port : Z;
  enabled : bool;
  min_cost : Z;
  permanently_disabled : bool }.

Definition get_id (self : t) : nat := id self.
Definition is_permanently_disabled (self : t) : bool := permanently_disabled self.
Definition get_min_cost (self : t) : Z := min_cost self.
Definition get_lan_port (self : t) : Z := lan_port self.

Definition set_min_cost (cost : Z) (self : t) : t :=
  {| id := id self; lan_port := lan_port self; enabled := enabled self;
     min_cost := cost; permanently_disabled := permanently_disabled self |}.

(** [set_permanently_disabled]; the program never calls it. *)
Definition set_permanently_disabled (self : t) : t :=
  {| id := id self; lan_port := lan_port self; enabled := enabled self;
     min_cost := min_cost self; permanently_disabled := true |}.

(** [if self.min_cost > cost: self.min_cost = cost] *)
Definition update_min_cost (cost : Z) (self : t) : t :=
  if cost <? min_cost self then set_min_cost cost self else self.

(** The line [set_enabled] prints, and the Port it leaves. *)
Definition set_enabled (enabled : bool) (self : t) : line * t :=
  (if enabled then Designated_port (id self) else Disabled_port (id self),
   {| id := id self; lan_port := lan_port self; enabled := enabled;
      min_cost := min_cost self; permanently_disabled := permanently_disabled self |}).

Definition is_enabled (self : t) : bool :=
  enabled self && negb (permanently_disabled self).

(** [Port.__init__]: the fields, then [self.set_enabled(not permanently_disabled)]. *)
Definition init (id : nat) (lan_port : Z) (permanently_disabled : bool) : line * t :=
  set_enabled (negb permanently_disabled)
    {| id := id; lan_port := lan_port; enabled := true; min_cost := 0;
       permanently_disabled := permanently_disabled |}.

(** [send]: nothing leaves a permanently disabled Port. *)
Definition send (data : payload) (self : t) : list sendto :=
  if negb (permanently_disabled self)
  then [ {| via := id self; to := lan_port self; sent := data |} ]
  else [].

(** The dict [send_bpdu] serialises; [bridge_id] is [args.bridge_id]. *)
Definition bpdu (bridge_id : string) (root_id : pyval) (cost : Z) (port : nat) : pyval :=
  PDict [ ("source", PStr bridge_id);
          ("dest", PStr "ffff");
          ("msg_id", PInt 0);
          ("type", PStr "bpdu");
          ("message", PDict [ ("id", PStr bridge_id);
                              ("root", root_id);
                              ("cost", PInt cost);
                              ("port", PInt (Z.of_nat port)) ]) ].

Definition send_bpdu (bridge_id : string) (root_id : pyval) (cost : Z) (self : t) : list sendto :=
  if negb (permanently_disabled self)
  then send (Dumps (bpdu bridge_id root_id cost (id self))) self
  else [].

End Port.

(** ** The state of the process *)

(** The objects of [main] and the two output streams.  [main] rebinds its
    variable [ADDR_TABLE] to a fresh dict after an election update, while the
    announcer thread keeps the dict it was started with:
    [thread_ADDR_TABLE] is [None] while both still name the same dict, and
    the dict the thread holds once [main] has moved on. *)
Record world : Type := World {
  bridgeInfo : BridgeInfo.t;
  PORTS : list Port.t;
  ADDR_TABLE : table;
  thread_ADDR_TABLE : option table;
  stdout : list line;
  wire : list sendto }.

Definition announcer_table (w : world) : table :=
  match thread_ADDR_TABLE w with
  | None => ADDR_TABLE w
  | Some d => d
  end.

Definition with_bridgeInfo (f : BridgeInfo.t -> BridgeInfo.t) (w : world) : world :=
  {| bridgeInfo := f (bridgeInfo w); PORTS := PORTS w; ADDR_TABLE := ADDR_TABLE w;
     thread_ADDR_TABLE := thread_ADDR_TABLE w; stdout := stdout w; wire := wire w |}.

Definition with_PORTS (f : list Port.t -> list Port.t) (w : world) : world :=
  {| bridgeInfo := bridgeInfo w; PORTS := f (PORTS w); ADDR_TABLE := ADDR_TABLE w;
     thread_ADDR_TABLE := thread_ADDR_TABLE w; stdout := stdout w; wire := wire w |}.

Definition with_ADDR_TABLE (f : table -> table) (w : world) : world :=
  {| bridgeInfo := bridgeInfo w; PORTS := PORTS w; ADDR_TABLE := f (ADDR_TABLE w);
     thread_ADDR_TABLE := thread_ADDR_TABLE w; stdout := stdout w; wire := wire w |}.

(** [ADDR_TABLE = {}] in [main]: a new dict; the old one stays with the thread. *)
Definition rebind_ADDR_TABLE (w : world) : world :=
  {| bridgeInfo := bridgeInfo w; PORTS := PORTS w; ADDR_TABLE := [];
     thread_ADDR_TABLE := Some (announcer_table w); stdout := stdout w; wire := wire w |}.

Definition with_stdout (f : list line -> list line) (w : world) : world :=
  {| bridgeInfo := bridgeInfo w; PORTS := PORTS w; ADDR_TABLE := ADDR_TABLE w;
     thread_ADDR_TABLE := thread_ADDR_TABLE w; stdout := f (stdout w); wire := wire w |}.

Definition with_wire (f : list sendto -> list sendto) (w : world) : world :=
  {| bridgeInfo := bridgeInfo w; PORTS := PORTS w; ADDR_TABLE := ADDR_TABLE w;
     thread_ADDR_TABLE := thread_ADDR_TABLE w; stdout := stdout w; wire := f (wire w) |}.

(** ** State and exceptions *)

Definition M (A : Type) : Type := world -> result A * world.

Definition ret {A} (a : A) : M A := fun w => (Ok a, w).

Definition bind {A B} (m : M A) (k : A -> M B) : M B :=
  fun w =>
    match m w with
    | (Ok a, w') => k a w'
    | (Raise e, w') => (Raise e, w')
    end.

Definition raise {A} (e : exn) : M A := fun w => (Raise e, w).
Definition lift {A} (r : result A) : M A := fun w => (r, w).
Definition gets {A} (f : world -> A) : M A := fun w => (Ok (f w), w).
Definition modify (f : world -> world) : M unit := fun w => (Ok tt, f w).

Declare Scope py_scope.
Delimit Scope py_scope with py.
Notation "x <- m ;; k" := (bind m (fun x => k))
  (at level 61, m at next level, right associativity) : py_scope.
Notation "m ;; k" := (bind m (fun _ => k))
  (at level 61, right associativity) : py_scope.
Local Open Scope py_scope.

(** [print]: the whole line is encoded before anything is written, so a line
    that cannot be encoded raises and writes nothing. *)
Definition print (l : line) : M unit :=
  if writable l
  then modify (with_stdout (fun out => out ++ [l]))
  else raise UnicodeEncodeError.
Definition emit (s : list sendto) : M unit := modify (with_wire (fun out => out ++ s)).

(** Reading and calling methods of [bridgeInfo]. *)
Definition ask {A} (getter : BridgeInfo.t -> A) : M A := gets (fun w => getter (bridgeInfo w)).
Definition tell (setter : BridgeInfo.t -> BridgeInfo.t) : M unit := modify (with_bridgeInfo setter).

(** [PORTS[i]] *)
Definition port_at (i : nat) : M Port.t :=
  fun w =>
    match nth_error (PORTS w) i with
    | Some p => (Ok p, w)
    | None => (Raise IndexError, w)
    end.

Fixpoint replace_nth {A} (i : nat) (x : A) (l : list A) : list A :=
  match l, i with
  | [], _ => []
  | _ :: rest, O => x :: rest
  | y :: rest, S j => y :: replace_nth j x rest
  end.

(** [PORTS[i].method(...)] for a method that mutates the Port. *)
Definition call_port (i : nat) (method : Port.t -> Port.t) : M unit :=
  fun w =>
    match nth_error (PORTS w) i with
    | Some p => (Ok tt, with_PORTS (replace_nth i (method p)) w)
    | None => (Raise IndexError, w)
    end.

Fixpoint for_each {A} (l : list A) (body : A -> M unit) : M unit :=
  match l with
  | [] => ret tt
  | x :: rest => body x ;; for_each rest body
  end.

(** [enumerate(l)] *)
Definition enumerate {A} (l : list A) : list (nat * A) := combine (seq 0 (List.length l)) l.

(** [l.index(x)]: the first position of [x]. *)
Fixpoint index (x : Z) (l : list Z) : option nat :=
  match l with
  | [] => None
  | y :: rest => if Z.eqb y x then Some O else option_map S (index x rest)
  end.

(** ** The program *)

(** [args], as [argparse] returns it: the bridge's own identifier and the UDP
    port of each LAN, in the order given on the command line. *)
Record Namespace : Type := {
  bridge_id : string;
  lan_ports : list Z }.

(** What [recvfrom] returns, with the outcome of
    [json.loads(data.decode('utf-8'))] on it: [loads] is [None] when that
    raises, and [loads_raises] is then the exception: [ValueError] for bytes
    that are not UTF-8 or not JSON, [RecursionError] for JSON nested too
    deep.  [from] is [addr[1]], the UDP port the datagram came from. *)
Record datagram : Type := {
  data : string;
  loads : option pyval;
  loads_raises : exn;
  from : Z }.

Section Bridge.

Variable args : Namespace.

(** [int(s)] on a string: the parser of the Python runtime, [None] when it
    raises [ValueError]. *)
Variable int_of_str : string -> option Z.

(** [int(v)] *)
Definition py_int (v : pyval) : result Z :=
  match v with
  | PBool b => Ok (if b then 1 else 0)
  | PInt z => Ok z
  | PStr s =>
      match int_of_str s with
      | Some z => Ok z
      | None => Raise ValueError
      end
  | _ => Raise TypeError
  end.

(** [args.lan_ports.index(lan_port)] *)
Definition get_port_from_lan_port (lan_port : Z) : result nat :=
  match index lan_port (lan_ports args) with
  | Some i => Ok i
  | None => Raise ValueError
  end.

(** [for port in PORTS: port.send_bpdu(root_id, cost)] *)
Definition send_bpdus (root_id : pyval) (cost : Z) : M unit :=
  ports <- gets PORTS ;;
  emit (flat_map (Port.send_bpdu (bridge_id args) root_id cost) ports).

(** *** The announcer thread: one turn of the loop of [send_bpdus_thread] *)

(** Before [time.sleep(0.5)]. *)
Definition announce : M unit :=
  root_id <- ask BridgeInfo.get_root_id ;;
  cost <- ask BridgeInfo.get_cost ;;
  send_bpdus root_id cost ;;
  tell BridgeInfo.increase_unconfirmed.

(** The name [none] is bound nowhere in the module nor in the builtins:
    evaluating it raises [NameError]. *)
Definition none : M Z := raise (NameError "none").

(** [for i in ADDR_TABLE: ADDR_TABLE.remove(i)], on the dict the thread was
    given: a dict has no attribute [remove], so the first turn raises. *)
Definition remove_each : M unit :=
  t <- gets announcer_table ;;
  match t with
  | [] => ret tt
  | _ :: _ => raise (AttributeError "remove")
  end.

(** After the sleep: the root-loss test and its branch. *)
Definition root_loss : M unit :=
  u <- ask BridgeInfo.get_unconfirmed ;;
  if 2 <? u then
    b <- ask BridgeInfo.get_bridge_id ;;
    tell (BridgeInfo.set_root_id (PStr b)) ;;
    b <- ask BridgeInfo.get_bridge_id ;;
    tell (BridgeInfo.set_next_hop (PStr b)) ;;
    p <- none ;;
    tell (BridgeInfo.set_root_port p) ;;
    tell (BridgeInfo.set_cost 0) ;;
    remove_each
  else ret tt.

Definition send_bpdus_thread_turn : M unit :=
  announce ;; root_loss.

(** *** [update_bpdu] *)

(** The test of the first [if]:
    [msg_root_id < root_id
     or (msg_root_id == root_id and msg_cost + 1 < cost)
     or (msg_root_id == root_id and msg_cost == cost and msg_source < next_hop)]. *)
Definition better (msg_root_id : pyval) (msg_cost : Z) (msg_source : pyval)
    (root_id : pyval) (cost : Z) (next_hop : pyval) : result bool :=
  rbind (py_lt msg_root_id root_id) (fun lower =>
  if lower then Ok true
  else if py_eq msg_root_id root_id && (msg_cost + 1 <? cost) then Ok true
  else if py_eq msg_root_id root_id && (msg_cost =? cost) then py_lt msg_source next_hop
  else Ok false).

(** The test of the [elif]. *)
Definition reconfirms (msg_root_id : pyval) (msg_cost : Z) (msg_source : pyval)
    (root_id : pyval) (cost : Z) (next_hop : pyval) (own_id : string) : bool :=
  (py_eq msg_root_id root_id && (msg_cost + 1 =? cost) && py_eq msg_source next_hop)
  || py_eq root_id (PStr own_id).

(** The body of the first [if]. *)
Definition adopt (message msg_root_id : pyval) (msg_cost : Z) (msg_source : pyval)
    (root_id : pyval) (curr_port : nat) : M bool :=
  lower <- lift (py_lt msg_root_id root_id) ;;
  (if lower then
     tell (BridgeInfo.set_root_id msg_root_id) ;;
     root_id <- ask BridgeInfo.get_root_id ;;
     body <- lift (py_getitem message "message") ;;
     c <- lift (py_getitem body "cost") ;;
     c1 <- lift (py_add1 c) ;;
     print (New_root root_id c1)
   else ret tt) ;;
  tell (BridgeInfo.set_cost (msg_cost + 1)) ;;
  tell (BridgeInfo.set_next_hop msg_source) ;;
  tell (BridgeInfo.set_root_port (Z.of_nat curr_port)) ;;
  cost <- ask BridgeInfo.get_cost ;;
  modify (with_PORTS (map (fun port =>
    if negb (Nat.eqb (Port.get_id port) curr_port)
    then Port.set_min_cost 999999 port
    else Port.set_min_cost (cost - 1) port))) ;;
  print (Root_port curr_port) ;;
  root_id <- ask BridgeInfo.get_root_id ;;
  cost <- ask BridgeInfo.get_cost ;;
  send_bpdus root_id cost ;;
  ret true.

(** The test that decides whether [PORTS[curr_port]] forwards:
    [not permanently_disabled and
     (min_cost >= cost + 1
      or (min_cost == cost and msg_source >= args.bridge_id)
      or (min_cost == cost - 1 and curr_port == root_port))]. *)
Definition designated (port : Port.t) (cost root_port : Z) (msg_source : pyval)
    (curr_port : nat) : result bool :=
  if Port.is_permanently_disabled port then Ok false
  else if cost + 1 <=? Port.get_min_cost port then Ok true
  else
    rbind (if Port.get_min_cost port =? cost
           then py_ge msg_source (PStr (bridge_id args))
           else Ok false) (fun tie =>
    if tie then Ok true
    else Ok ((Port.get_min_cost port =? cost - 1) && (Z.of_nat curr_port =? root_port))).

(** [PORTS[curr_port].set_enabled(enabled)] *)
Definition set_enabled_at (curr_port : nat) (enabled : bool) : M unit :=
  port <- port_at curr_port ;;
  print (fst (Port.set_enabled enabled port)) ;;
  call_port curr_port (fun port => snd (Port.set_enabled enabled port)).

(** The last [if] of [update_bpdu]. *)
Definition designate (msg_root_id : pyval) (msg_cost : Z) (msg_source : pyval)
    (curr_port : nat) : M unit :=
  root_id <- ask BridgeInfo.get_root_id ;;
  if py_eq msg_root_id root_id then
    call_port curr_port (Port.update_min_cost msg_cost) ;;
    port <- port_at curr_port ;;
    cost <- ask BridgeInfo.get_cost ;;
    root_port <- ask BridgeInfo.get_root_port ;;
    keep <- lift (designated port cost root_port msg_source curr_port) ;;
    if keep
    then (if negb (Port.is_enabled port) then set_enabled_at curr_port true else ret tt)
    else (if Port.is_enabled port then set_enabled_at curr_port false else ret tt)
  else ret tt.

Definition update_bpdu (message : pyval) (curr_port : nat) : M bool :=
  root_id <- ask BridgeInfo.get_root_id ;;
  cost <- ask BridgeInfo.get_cost ;;
  next_hop <- ask BridgeInfo.get_next_hop ;;
  body <- lift (py_getitem message "message") ;;
  msg_root_id <- lift (py_getitem body "root") ;;
  body <- lift (py_getitem message "message") ;;
  c <- lift (py_getitem body "cost") ;;
  msg_cost <- lift (py_int c) ;;
  msg_source <- lift (py_getitem message "source") ;;
  is_better <- lift (better msg_root_id msg_cost msg_source root_id cost next_hop) ;;
  updated <-
    (if is_better then adopt message msg_root_id msg_cost msg_source root_id curr_port
     else
       own_id <- ask BridgeInfo.get_bridge_id ;;
       (if reconfirms msg_root_id msg_cost msg_source root_id cost next_hop own_id
        then tell BridgeInfo.reset_unconfirmed
        else ret tt) ;;
       ret false) ;;
  designate msg_root_id msg_cost msg_source curr_port ;;
  ret updated.

(** *** Data frames *)


(** [(source, msg_id)] as the three messages of [sending_data] format them:
    ["%s/%d" % (message['source'], message['msg_id'])]. *)
Definition source_and_msg_id (message : pyval) : result (pyval * Z) :=
  rbind (py_getitem message "source") (fun source =>
  rbind (py_getitem message "msg_id") (fun msg_id =>
  rbind (py_format_d msg_id) (fun n => Ok (source, n)))).

(** The [for] loop of the broadcast branch:
    [if port != PORTS[curr_port] and port.is_enabled(): port.send(data)].
    Ports are compared as objects, that is by their place in [PORTS]. *)
Definition flood (data : payload) (curr_port : nat) : M unit :=
  ports <- gets PORTS ;;
  match ports with
  | [] => ret tt
  | _ :: _ =>
      port_at curr_port ;;
      emit (flat_map (fun ip =>
              if negb (Nat.eqb (fst ip) curr_port) && Port.is_enabled (snd ip)
              then Port.send data (snd ip)
              else []) (enumerate ports))
  end.

Definition sending_data (data : payload) (message : pyval) (curr_port : nat) : M unit :=
  source <- lift (py_getitem message "source") ;;
  t <- gets ADDR_TABLE ;;
  known <- lift (table_contains source t) ;;
  (if negb known then
     source <- lift (py_getitem message "source") ;;
     t <- gets ADDR_TABLE ;;
     t' <- lift (table_setitem source curr_port t) ;;
     modify (with_ADDR_TABLE (fun _ => t'))
   else ret tt) ;;
  dest <- lift (py_getitem message "dest") ;;
  t <- gets ADDR_TABLE ;;
  known <- lift (table_contains dest t) ;;
  if known then
    dest <- lift (py_getitem message "dest") ;;
    port_id <- lift (table_getitem dest t) ;;
    relay <- (if negb (Nat.eqb port_id curr_port)
              then port <- port_at port_id ;; ret (Port.is_enabled port)
              else ret false) ;;
    if relay then
      sm <- lift (source_and_msg_id message) ;;
      print (Forwarding (fst sm) (snd sm) port_id) ;;
      port <- port_at port_id ;;
      emit (Port.send data port)
    else
      sm <- lift (source_and_msg_id message) ;;
      print (Not_forwarding (fst sm) (snd sm))
  else
    sm <- lift (source_and_msg_id message) ;;
    print (Broadcasting (fst sm) (snd sm)) ;;
    flood data curr_port.

(** *** [main] *)

(** One turn of [for s in readable]. *)
Definition receive (d : datagram) : M unit :=
  message <- lift (match loads d with Some v => Ok v | None => Raise (loads_raises d) end) ;;
  curr_port <- lift (get_port_from_lan_port (from d)) ;;
  type <- lift (py_getitem message "type") ;;
  if py_eq type (PStr "bpdu") then
    updated <- update_bpdu message curr_port ;;
    if updated then modify rebind_ADDR_TABLE else ret tt
  else
    port <- port_at curr_port ;;
    if Port.is_enabled port then
      source <- lift (py_getitem message "source") ;;
      msg_id <- lift (py_getitem message "msg_id") ;;
      dest <- lift (py_getitem message "dest") ;;
      n <- lift (py_format_d msg_id) ;;
      print (Received source n curr_port dest) ;;
      sending_data (Bytes (data d)) message curr_port
    else ret tt.

(** The objects [main] starts from: no Port yet, an empty table. *)
Definition blank : world :=
  {| bridgeInfo := BridgeInfo.init (bridge_id args);
     PORTS := [];
     ADDR_TABLE := [];
     thread_ADDR_TABLE := None;
     stdout := [];
     wire := [] |}.

(** [PORTS.append(Port(i, lan_port, get_port_from_lan_port(lan_port) < i))] *)
Definition append_port (i_lan_port : nat * Z) : M unit :=
  first <- lift (get_port_from_lan_port (snd i_lan_port)) ;;
  print (fst (Port.init (fst i_lan_port) (snd i_lan_port) (Nat.ltb first (fst i_lan_port)))) ;;
  modify (with_PORTS (fun ports =>
    ports ++ [snd (Port.init (fst i_lan_port) (snd i_lan_port) (Nat.ltb first (fst i_lan_port)))])).

(** [main] up to the start of the announcer thread. *)
Definition setup : M unit :=
  print Bridge_starting_up ;;
  for_each (enumerate (lan_ports args)) append_port ;;
  root_id <- ask BridgeInfo.get_root_id ;;
  cost <- ask BridgeInfo.get_cost ;;
  print (New_root root_id cost) ;;
  print Root_port_none.

(** The state in which the event loop and the announcer start. *)
Definition startup : world := snd (setup blank).

(** ** Runs of the bridge *)

(** The states in which a handler of the event loop can run.  An exception
    in a handler ends the event loop, so a handler only ever starts from a
    state that earlier handlers reached by returning; a turn of the announcer
    thread counts whatever its outcome, since the event loop goes on without
    it.  Handlers and announcer steps are taken here one after the other; a
    step of the announcer that falls inside a handler is the matter of
    [update_bpdu_interrupted] below. *)
Inductive reachable : world -> Prop :=
| reach_startup : reachable startup
| reach_receive d w w' :
    reachable w -> receive d w = (Ok tt, w') -> reachable w'
| reach_update_bpdu message curr_port updated w w' :
    reachable w -> update_bpdu message curr_port w = (Ok updated, w') -> reachable w'
| reach_sending_data data message curr_port w w' :
    reachable w -> sending_data data message curr_port w = (Ok tt, w') -> reachable w'
| reach_announce w :
    reachable w -> reachable (snd (announce w))
| reach_root_loss w :
    reachable w -> reachable (snd (root_loss w)).

(** The root and the cost a control frame advertises, as [update_bpdu] reads
    them. *)
Definition advertised (message : pyval) : option (pyval * Z) :=
  match py_getitem message "message" with
  | Ok body =>
      match py_getitem body "root", py_getitem body "cost" with
      | Ok root, Ok c =>
          match py_int c with
          | Ok z => Some (root, z)
          | Raise _ => None
          end
      | _, _ => None
      end
  | Raise _ => None
  end.



(** ** Malformed frames *)

(** The payload gives no value under key [k]: it is not an object, or it has
    no such key. *)
Definition lacks (v : pyval) (k : string) : Prop :=
  exists e, py_getitem v k = Raise e.

(** A datagram whose payload does not decode, or lacks a field that the
    handler of its kind reads. *)
Inductive malformed (d : datagram) : Prop :=
| not_decodable :
    loads d = None -> malformed d
| no_type message :
    loads d = Some message -> lacks message "type" -> malformed d
| control_lacks message type :
    loads d = Some message ->
    py_getitem message "type" = Ok type ->
    py_eq type (PStr "bpdu") = true ->
    (lacks message "source" \/ lacks message "message" \/
     exists body, py_getitem message "message" = Ok body /\
                  (lacks body "root" \/ lacks body "cost")) ->
    malformed d
| data_lacks message type :
    loads d = Some message ->
    py_getitem message "type" = Ok type ->
    py_eq type (PStr "bpdu") = false ->
    (lacks message "source" \/ lacks message "msg_id" \/ lacks message "dest") ->
    malformed d.

(** ** Invariants *)

(** What is fixed of a Port once it is built. *)
Definition attachment (p : Port.t) : nat * Z * bool :=
  (Port.id p, Port.lan_port p, Port.permanently_disabled p).

(** The Ports are those built at startup, up to [enabled] and [min_cost]. *)
Definition same_attachments (w : world) : Prop :=
  map attachment (PORTS w) = map attachment (PORTS startup).

(** The id of a Port is its place in [PORTS]. *)
Definition ports_indexed (w : world) : Prop :=
  forall i p, nth_error (PORTS w) i = Some p -> Port.id p = i.

(** The smallest cost heard on the root port is the one the bridge's own
    cost was computed from. *)
Definition root_port_min_cost (w : world) : Prop :=
  forall i p,
    BridgeInfo.root_port (bridgeInfo w) = Z.of_nat i ->
    nth_error (PORTS w) i = Some p ->
    Port.min_cost p = BridgeInfo.cost (bridgeInfo w) - 1.

End Bridge.

(** ** The two loops and their runs *)

Section Runs.

Variable args : Namespace.
Variable int_of_str : string -> option Z.



(** *** The announcer inside a handler

    The two threads share [bridgeInfo] with no lock, so the announcer can run
    between two statements of [update_bpdu].  [elect] is [update_bpdu] up to
    the end of its [elif], with what it has read from the frame and
    [updated]; [decide] is the rest, the last [if] and the [return]. *)
Definition elect (message : pyval) (curr_port : nat) : M (pyval * Z * pyval * bool) :=
  root_id <- ask BridgeInfo.get_root_id ;;
  cost <- ask BridgeInfo.get_cost ;;
  next_hop <- ask BridgeInfo.get_next_hop ;;
  body <- lift (py_getitem message "message") ;;
  msg_root_id <- lift (py_getitem body "root") ;;
  body <- lift (py_getitem message "message") ;;
  c <- lift (py_getitem body "cost") ;;
  msg_cost <- lift (py_int int_of_str c) ;;
  msg_source <- lift (py_getitem message "source") ;;
  is_better <- lift (better msg_root_id msg_cost msg_source root_id cost next_hop) ;;
  updated <-
    (if is_better then adopt args message msg_root_id msg_cost msg_source root_id curr_port
     else
       own_id <- ask BridgeInfo.get_bridge_id ;;
       (if reconfirms msg_root_id msg_cost msg_source root_id cost next_hop own_id
        then tell BridgeInfo.reset_unconfirmed
        else ret tt) ;;
       ret false) ;;
  ret (msg_root_id, msg_cost, msg_source, updated).

Definition decide (locals : pyval * Z * pyval * bool) (curr_port : nat) : M bool :=
  designate args (fst (fst (fst locals))) (snd (fst (fst locals))) (snd (fst locals))
    curr_port ;;
  ret (snd locals).

(** [update_bpdu] when the announcer thread runs [other] between the [elif]
    and the last [if] of the handler.  An exception that [other] raises ends
    the announcer thread, not the handler. *)
Definition update_bpdu_interrupted (other : M unit) (message : pyval) (curr_port : nat)
    : M bool :=
  locals <- elect message curr_port ;;
  modify (fun w => snd (other w)) ;;
  decide locals curr_port.

(** The states of a run of the program: those the event loop of [main]
    reaches by turns that return, with the turns of the announcer thread in
    between. *)
Inductive running : world -> Prop :=
| run_startup : running (startup args)
| run_receive d w w' :
    running w -> receive args int_of_str d w = (Ok tt, w') -> running w'
| run_announce w :
    running w -> running (snd (announce args w))
| run_root_loss w :
    running w -> running (snd (root_loss w)).



(** The LAN [lan] stands before place [i] in the attachment list. *)
Definition attached_before (i : nat) (lan : Z) : bool :=
  existsb (Z.eqb lan) (firstn i (lan_ports args)).


(** The Port of the attachment at place [fst il], as [main] builds it. *)
Definition built (il : nat * Z) : Port.t :=
  {| Port.id := fst il;
     Port.lan_port := snd il;
     Port.enabled := negb (attached_before (fst il) (snd il));
     Port.min_cost := 0;
     Port.permanently_disabled := attached_before (fst il) (snd il) |}.


(** Every entry of the table was learnt on the place of a LAN. *)
Definition learnt_on_ingress (w : world) : Prop :=
  forall k p, In (k, p) (ADDR_TABLE w) ->
    hashable k = true /\ exists lan, index lan (lan_ports args) = Some p.

(** The ingress Port has heard the cost [c] and forwards as the test says. *)
Definition settled (r : pyval) (c : Z) (s : pyval) (i : nat) (w : world) : Prop :=
  py_eq r (BridgeInfo.root_id (bridgeInfo w)) = false \/
  exists p keep,
    nth_error (PORTS w) i = Some p /\
    Port.min_cost p <= c /\
    designated args p (BridgeInfo.cost (bridgeInfo w))
      (BridgeInfo.root_port (bridgeInfo w)) s i = Ok keep /\
    Port.is_enabled p = keep.

End Runs.

(** The line [update_bpdu] prints when the Port at a place goes from [before]
    to [after]. *)
Definition transition (before after : option Port.t) : list line :=
  match before, after with
  | Some p, Some p' =>
      if Port.is_enabled p
      then (if Port.is_enabled p' then [] else [Disabled_port (Port.id p')])
      else (if Port.is_enabled p' then [Designated_port (Port.id p')] else [])
  | _, _ => []
  end.

(** ** A bridge for the examples

    Bridge 0002 with three attachments, the third one on the LAN of the
    first. *)

(** A reader of plain decimal numerals, standing for [int] on strings. *)
Fixpoint decimal_digits (s : string) (acc : Z) : option Z :=
  match s with
  | EmptyString => Some acc
  | String c rest =>
      let n := Z.of_nat (nat_of_ascii c) in
      if (48 <=? n) && (n <=? 57) then decimal_digits rest (10 * acc + (n - 48)) else None
  end.

Definition decimal (s : string) : option Z :=
  match s with
  | EmptyString => None
  | String "-" (String c rest) => option_map Z.opp (decimal_digits (String c rest) 0)
  | _ => decimal_digits s 0
  end.

Definition bridge_0002 : Namespace :=
  {| bridge_id := "0002"; lan_ports := [5001; 5002; 5001] |}.

(** The control frame bridge [source] sends when it believes [root] to be
    [cost] hops away, arriving from the LAN on UDP port [lan]. *)
Definition control (source root : string) (cost lan : Z) : datagram :=
  {| data := "bpdu";
     loads := Some (Port.bpdu source (PStr root) cost 0);
     loads_raises := ValueError;
     from := lan |}.

(** A data frame from host [source] to host [dest]. *)
Definition frame (source dest : string) : pyval :=
  PDict [ ("source", PStr source); ("dest", PStr dest); ("msg_id", PInt 7);
          ("type", PStr "data") ].

Definition data_frame (source dest : string) (lan : Z) : datagram :=
  {| data := "payload"; loads := Some (frame source dest); loads_raises := ValueError;
     from := lan |}.

(** Steps run one after the other from [w], up to the first that raises. *)
Fixpoint run (steps : list (M unit)) (w : world) : result unit * world :=
  match steps with
  | [] => (Ok tt, w)
  | m :: rest =>
      match m w with
      | (Ok _, w') => run rest w'
      | (Raise e, w') => (Raise e, w')
      end
  end.

(** Bridge 0002 after it has adopted 0001, heard on its first port, as root. *)
Definition adopted_0001 : world :=
  snd (receive bridge_0002 decimal (control "0001" "0001" 0 5001) (startup bridge_0002)).

(** The same bridge once it has also learnt host h1 on its first port. *)
Definition learnt_h1 : world :=
  snd (receive bridge_0002 decimal (data_frame "h1" "h2" 5001) adopted_0001).

(** ... and after two turns of the announcer with no frame from 0001. *)
Definition two_silent_turns : world :=
  snd (run [send_bpdus_thread_turn bridge_0002; send_bpdus_thread_turn bridge_0002] learnt_h1).

(** The third turn, up to the sleep: the counter reaches 3. *)
Definition third_announce : world := snd (announce bridge_0002 two_silent_turns).

(** What the root-loss branch leaves behind. *)
Definition after_root_loss : world := snd (root_loss third_announce).

(** A datagram whose payload is not JSON, and one whose object has no [type]. *)
Definition not_json : datagram :=
  {| data := "hello"; loads := None; loads_raises := ValueError; from := 5001 |}.

Definition untyped : datagram :=
  {| data := "untyped"; loads := Some (PDict [ ("source", PStr "h1") ]);
     loads_raises := ValueError; from := 5001 |}.

(** The control frame of bridge 0003 when it reaches root 0001 in one hop,
    and bridge 0002 after it has heard that frame on its second port. *)
Definition peer_0003 : pyval := Port.bpdu "0003" (PStr "0001") 1 0.

Definition peer_heard : world :=
  snd (update_bpdu bridge_0002 decimal peer_0003 1 adopted_0001).


(** Bridge 0002, root 0001 adopted, after a first data frame from host h1 on
    its first port. *)
Definition first_sight : world :=
  snd (sending_data (Bytes "payload") (frame "h1" "h2") 0 adopted_0001).

(** Bridge 0009, on two LANs, once it has adopted root 0001 through 0003. *)
Definition bridge_0009 : Namespace :=
  {| bridge_id := "0009"; lan_ports := [5001; 5002] |}.

Definition via_0003 : world :=
  snd (receive bridge_0009 decimal (control "0003" "0001" 0 5001) (startup bridge_0009)).

(** A datagram from a UDP port that is none of the LANs of bridge 0002,
    whose payload opens more lists than the interpreter allows calls to nest
    (1000 by default). *)
Definition nested_too_deep : datagram :=
  {| data := String.concat "" (repeat "[" 2000);
     loads := None;
     loads_raises := RecursionError;
     from := 9999 |}.

(** The control frame of root 0001 with its cost written as text. *)
Definition text_cost : pyval :=
  PDict [ ("source", PStr "0001");
          ("type", PStr "bpdu");
          ("message", PDict [ ("id", PStr "0001"); ("root", PStr "0001");
                              ("cost", PStr "0") ]) ].

(** Bridge 0002, root 0001 adopted on its first port, once it has heard the
    root itself on its second port: that Port stops forwarding. *)
Definition second_port_disabled : world :=
  snd (update_bpdu bridge_0002 decimal (Port.bpdu "0001" (PStr "0001") 0 0) 1 adopted_0001).

(** Bridge 0002 once it has adopted root 0001, six hops away, through 0003,
    heard on its first port. *)
Definition far_from_root : world :=
  snd (receive bridge_0002 decimal (control "0003" "0001" 5 5001) (startup bridge_0002)).

(** ... after two turns of the announcer with no frame from 0003 and the
    announcement of the third: the counter is 3 and the thread sleeps before
    its root-loss test. *)
Definition before_root_loss : world :=
  snd (announce bridge_0002
         (snd (run [send_bpdus_thread_turn bridge_0002; send_bpdus_thread_turn bridge_0002]
                 far_from_root))).

(** The control frame of a bridge 0005 that holds 0002 to be the root, one
    hop away; and the bridge after a handler for it, on the first port,
    during which the announcer has woken up and run its root-loss branch. *)
Definition near_0005 : pyval := Port.bpdu "0005" (PStr "0002") 1 0.

Definition torn : world :=
  snd (update_bpdu_interrupted bridge_0002 decimal root_loss near_0005 0 before_root_loss).



(** A data frame whose [msg_id] is text. *)
Definition text_msg_id : datagram :=
  {| data := "payload";
     loads := Some (PDict [ ("source", PStr "h1"); ("dest", PStr "h2"); ("msg_id", PStr "7");
                            ("type", PStr "data") ]);
     loads_raises := ValueError;
     from := 5001 |}.

(** ** Tactics for running the handlers *)

(** Unfold the monad in [H], then split on what is examined, innermost
    first, dropping the branches that contradict the outcome [H] states. *)
Ltac unfold_monad H :=
  cbv beta iota zeta delta
    [bind ret raise lift gets ask tell modify print writable emit port_at call_port
     BridgeInfo.get_bridge_id BridgeInfo.get_root_port BridgeInfo.get_root_id
     BridgeInfo.get_cost BridgeInfo.get_next_hop BridgeInfo.get_unconfirmed
     Port.get_id Port.get_min_cost Port.get_lan_port Port.is_permanently_disabled] in H.

(** Projections of an updated [world]. *)
Ltac world_in H :=
  cbn [with_bridgeInfo with_PORTS with_ADDR_TABLE with_stdout with_wire rebind_ADDR_TABLE
       announcer_table bridgeInfo PORTS ADDR_TABLE thread_ADDR_TABLE stdout wire] in H.

Ltac world :=
  cbn [with_bridgeInfo with_PORTS with_ADDR_TABLE with_stdout with_wire rebind_ADDR_TABLE
       announcer_table bridgeInfo PORTS ADDR_TABLE thread_ADDR_TABLE stdout wire].

Ltac innermost x :=
  lazymatch x with
  | context [match ?y with _ => _ end] => innermost y
  | _ => x
  end.

Ltac exec H :=
  repeat (cbn beta iota zeta delta [negb andb orb fst snd] in H; world_in H;
          match type of H with
          | (Raise _, _) = (Ok _, _) => discriminate H
          | (Ok _, _) = (Raise _, _) => discriminate H
          | context [match ?x with _ => _ end] =>
              let y := innermost x in
              let E := fresh "E" in destruct y eqn:E
          end).

(** * Properties *)

(** ** Python values *)

Lemma forall2b_refl (A : Type) (f : A -> A -> bool) (l : list A) :
  Forall (fun x => f x x = true) l -> forall2b f l l = true.
Proof.
  induction 1 as [|x xs Hx _ IH]; simpl; [reflexivity|].
  now rewrite Hx, IH.
Qed.

(** A value equals itself (the model has no NaN). *)
Lemma py_eq_refl : forall v, py_eq v v = true.
Proof.
  fix IH 1. intros [ | b | z | s | l | d]; simpl.
  - reflexivity.
  - apply Z.eqb_refl.
  - apply Z.eqb_refl.
  - apply String.eqb_refl.
  - apply forall2b_refl. induction l as [|x xs IHl]; constructor; [apply IH | exact IHl].
  - rewrite Nat.eqb_refl. simpl.
    assert (Hall : Forall (fun kv : string * pyval => py_eq (snd kv) (snd kv) = true) d).
    { induction d as [|kv rest IHd]; constructor; [apply IH | exact IHd]. }
    apply forallb_forall. intros kv Hin. apply existsb_exists. exists kv. split; [exact Hin|].
    rewrite String.eqb_refl. simpl.
    rewrite Forall_forall in Hall. now apply Hall.
Qed.

(** ** Printing *)

(** The lines of [set_enabled] hold only a number. *)
Lemma writable_set_enabled enabled p : writable (fst (Port.set_enabled enabled p)) = true.
Proof.
  now destruct enabled.
Qed.

Lemma writable_init i lan pd : writable (fst (Port.init i lan pd)) = true.
Proof.
  unfold Port.init. apply writable_set_enabled.
Qed.

(** ** Lists *)

Lemma nth_error_replace_nth_eq (A : Type) (l : list A) (i : nat) (x y : A) :
  nth_error l i = Some y -> nth_error (replace_nth i x l) i = Some x.
Proof.
  revert i; induction l as [|a l IH]; intros [|i] H; simpl in *; try discriminate; auto.
Qed.

Lemma nth_error_replace_nth_neq (A : Type) (l : list A) (i j : nat) (x : A) :
  i <> j -> nth_error (replace_nth i x l) j = nth_error l j.
Proof.
  revert i j; induction l as [|a l IH]; intros [|i] [|j] H; simpl; auto; congruence.
Qed.

Lemma replace_nth_twice (A : Type) (l : list A) (i : nat) (x y : A) :
  replace_nth i x (replace_nth i y l) = replace_nth i x l.
Proof.
  revert i; induction l as [|a l IH]; intros [|i]; simpl; auto. now rewrite IH.
Qed.

Lemma map_replace_nth (A B : Type) (f : A -> B) (l : list A) (i : nat) (x y : A) :
  nth_error l i = Some y -> f x = f y -> map f (replace_nth i x l) = map f l.
Proof.
  revert i; induction l as [|a l IH]; intros [|i] H Hf; simpl in *; try discriminate; auto.
  - inversion H; subst. now rewrite Hf.
  - f_equal. now apply IH.
Qed.

Lemma nth_error_combine_seq (A : Type) (l : list A) (k i : nat) (x : A) :
  nth_error (combine (seq k (List.length l)) l) i = Some (k + i, x)%nat <->
  nth_error l i = Some x.
Proof.
  revert k i; induction l as [|a l IH]; intros k [|i]; simpl; try (split; discriminate).
  - rewrite Nat.add_0_r. split; intros H; inversion H; reflexivity.
  - rewrite <- (IH (S k) i). now rewrite Nat.add_succ_r.
Qed.

Lemma in_combine_seq (A : Type) (l : list A) (k j : nat) (x : A) :
  In (j, x) (combine (seq k (List.length l)) l) <->
  exists i, j = (k + i)%nat /\ nth_error l i = Some x.
Proof.
  revert k; induction l as [|a l IH]; intros k; simpl.
  - split; [tauto | intros [[|i] [_ H]]; discriminate].
  - rewrite IH. split.
    + intros [H | [i [-> H]]].
      * inversion H; subst. exists 0%nat. now rewrite Nat.add_0_r.
      * exists (S i). now rewrite Nat.add_succ_r.
    + intros [[|i] [-> H]]; simpl in H.
      * left. inversion H; subst. now rewrite Nat.add_0_r.
      * right. exists i. now rewrite Nat.add_succ_r.
Qed.

(** [enumerate] pairs every item with its place. *)
Lemma in_enumerate (A : Type) (l : list A) (j : nat) (x : A) :
  In (j, x) (enumerate l) <-> nth_error l j = Some x.
Proof.
  unfold enumerate. rewrite in_combine_seq. split.
  - now intros [i [-> H]].
  - intros H. now exists j.
Qed.

(** ** Running the handlers *)

Section Properties.

Variable args : Namespace.
Variable int_of_str : string -> option Z.

(** What [adopt] leaves when it returns: the new belief, every [min_cost]
    reset, and one BPDU with the new belief per Port that may send. *)
Lemma adopt_ok message r c s root0 i u w w1 :
  adopt args message r c s root0 i w = (Ok u, w1) ->
  exists lower,
    py_lt r root0 = Ok lower /\ u = true /\
    bridgeInfo w1 =
      BridgeInfo.Build (BridgeInfo.bridge_id (bridgeInfo w)) (Z.of_nat i)
        (if lower then r else BridgeInfo.root_id (bridgeInfo w)) (c + 1) s
        (BridgeInfo.unconfirmed (bridgeInfo w)) /\
    PORTS w1 =
      map (fun port => if negb (Nat.eqb (Port.id port) i)
                       then Port.set_min_cost 999999 port
                       else Port.set_min_cost (c + 1 - 1) port) (PORTS w) /\
    ADDR_TABLE w1 = ADDR_TABLE w /\
    thread_ADDR_TABLE w1 = thread_ADDR_TABLE w /\
    wire w1 =
      wire w ++ flat_map (Port.send_bpdu (bridge_id args)
                            (if lower then r else BridgeInfo.root_id (bridgeInfo w)) (c + 1))
                         (PORTS w1).
Proof.
  unfold adopt, send_bpdus. intros H. unfold_monad H.
  destruct (py_lt r root0) as [lower|] eqn:E; [|discriminate].
  exists lower. destruct lower; exec H; inversion H; subst; cbn; auto 10.
Qed.


(** What the last [if] of [update_bpdu] leaves when it returns: only
    [PORTS[i]] can change, to the smaller [min_cost] and to the [enabled]
    flag that [designated] computes. *)
Lemma designate_ok r c s i w w' :
  designate args r c s i w = (Ok tt, w') ->
  bridgeInfo w' = bridgeInfo w /\
  ADDR_TABLE w' = ADDR_TABLE w /\
  thread_ADDR_TABLE w' = thread_ADDR_TABLE w /\
  wire w' = wire w /\
  ((py_eq r (BridgeInfo.root_id (bridgeInfo w)) = false /\ PORTS w' = PORTS w) \/
   (py_eq r (BridgeInfo.root_id (bridgeInfo w)) = true /\
    exists p p' keep,
      nth_error (PORTS w) i = Some p /\
      designated args (Port.update_min_cost c p) (BridgeInfo.cost (bridgeInfo w))
        (BridgeInfo.root_port (bridgeInfo w)) s i = Ok keep /\
      PORTS w' = replace_nth i p' (PORTS w) /\
      attachment p' = attachment p /\
      Port.min_cost p' = Port.min_cost (Port.update_min_cost c p) /\
      (Port.permanently_disabled p = false -> Port.enabled p' = keep))).
Proof.
  unfold designate, set_enabled_at. intros H. unfold_monad H. cbn in H.
  destruct (py_eq r (BridgeInfo.root_id (bridgeInfo w))) eqn:Eroot.
  2:{ inversion H; subst. auto 10. }
  destruct (nth_error (PORTS w) i) as [p|] eqn:Ep; [|discriminate].
  cbn in H. rewrite (nth_error_replace_nth_eq _ _ _ Ep) in H. cbn in H.
  destruct (designated args (Port.update_min_cost c p) (BridgeInfo.cost (bridgeInfo w))
              (BridgeInfo.root_port (bridgeInfo w)) s i) as [keep|] eqn:Ek; [|discriminate].
  assert (Hatt : attachment (Port.update_min_cost c p) = attachment p).
  { unfold Port.update_min_cost. now destruct (c <? Port.min_cost p). }
  assert (Hpd : keep = true -> Port.permanently_disabled p = false).
  { intros ->. unfold designated, Port.is_permanently_disabled in Ek.
    injection Hatt as _ _ Hpd. rewrite Hpd in Ek.
    destruct (Port.permanently_disabled p); [discriminate | reflexivity]. }
  cbn in H.
  injection Hatt as Hid Hlan Hpd'.
  destruct keep; cbn in H;
    destruct (Port.is_enabled (Port.update_min_cost c p)) eqn:Een; cbn in H;
    repeat (rewrite (nth_error_replace_nth_eq _ _ _ Ep) in H; cbn in H);
    inversion H; subst; cbn; repeat (split; [reflexivity|]); right; (split; [reflexivity|]);
    try rewrite replace_nth_twice; unfold Port.is_enabled in Een.
  - exists p, (Port.update_min_cost c p), true. repeat split; auto.
    + unfold attachment; congruence.
    + intros Hp. rewrite Hpd', Hp in Een. now destruct (Port.enabled _).
  - exists p, (snd (Port.set_enabled true (Port.update_min_cost c p))), true.
    repeat split; auto. unfold attachment; cbn; congruence.
  - exists p, (snd (Port.set_enabled false (Port.update_min_cost c p))), false.
    repeat split; auto. unfold attachment; cbn; congruence.
  - exists p, (Port.update_min_cost c p), false. repeat split; auto.
    + unfold attachment; congruence.
    + intros Hp. rewrite Hpd', Hp in Een. now destruct (Port.enabled _).
Qed.

(** The course of [update_bpdu] when it returns: the fields it reads, the
    test of the election, the election step and the decision on the ingress
    port. *)
Lemma update_bpdu_ok message i u w w' :
  update_bpdu args int_of_str message i w = (Ok u, w') ->
  exists body r craw c s b w1,
    py_getitem message "message" = Ok body /\
    py_getitem body "root" = Ok r /\
    py_getitem body "cost" = Ok craw /\
    py_int int_of_str craw = Ok c /\
    py_getitem message "source" = Ok s /\
    better r c s (BridgeInfo.root_id (bridgeInfo w)) (BridgeInfo.cost (bridgeInfo w))
      (BridgeInfo.next_hop (bridgeInfo w)) = Ok b /\
    (if b
     then adopt args message r c s (BridgeInfo.root_id (bridgeInfo w)) i w = (Ok u, w1)
     else u = false /\
          (w1 = w \/ w1 = with_bridgeInfo BridgeInfo.reset_unconfirmed w)) /\
    designate args r c s i w1 = (Ok tt, w').
Proof.
  unfold update_bpdu. intros H. unfold_monad H.
  destruct (py_getitem message "message") as [body|] eqn:Ebody; [|discriminate].
  destruct (py_getitem body "root") as [r|] eqn:Er; [|discriminate].
  destruct (py_getitem body "cost") as [craw|] eqn:Ecraw; [|discriminate].
  destruct (py_int int_of_str craw) as [c|] eqn:Ec; [|discriminate].
  destruct (py_getitem message "source") as [s|] eqn:Es; [|discriminate].
  destruct (better r c s _ _ _) as [b|] eqn:Eb; [|discriminate].
  exists body, r, craw, c, s, b.
  destruct b.
  - destruct (adopt args message r c s (BridgeInfo.root_id (bridgeInfo w)) i w)
      as [[u1|] w1] eqn:Ea; [|discriminate].
    destruct (designate args r c s i w1) as [[[]|] w2] eqn:Ed; [|discriminate].
    inversion H; subst. exists w1. auto 10.
  - destruct (reconfirms _ _ _ _ _ _ _).
    + destruct (designate args r c s i _) as [[[]|] w2] eqn:Ed; [|discriminate].
      inversion H; subst.
      exists (with_bridgeInfo BridgeInfo.reset_unconfirmed w). auto 10.
    + destruct (designate args r c s i _) as [[[]|] w2] eqn:Ed; [|discriminate].
      inversion H; subst. exists w. auto 10.
Qed.

(** ** Data frames *)

(** A key that is absent goes to the end of the table. *)
Lemma table_put_absent k p t :
  table_get k t = None -> table_put k p t = t ++ [(k, p)].
Proof.
  induction t as [|[k' p'] t IH]; simpl; [reflexivity|].
  destruct (py_eq k k'); [discriminate|]. intros H. now rewrite IH.
Qed.

Lemma table_get_put k p t : table_get k (table_put k p t) = Some p.
Proof.
  induction t as [|[k' p'] t IH]; simpl.
  - now rewrite py_eq_refl.
  - destruct (py_eq k k') eqn:E; simpl; now rewrite E.
Qed.

(** What [sending_data] leaves when it returns: the table after the learning
    step, and what was sent, by the place of the destination in that table. *)
Lemma sending_data_ok data message i w w' :
  sending_data data message i w = (Ok tt, w') ->
  exists source dest,
    py_getitem message "source" = Ok source /\
    py_getitem message "dest" = Ok dest /\
    hashable source = true /\
    hashable dest = true /\
    ADDR_TABLE w' =
      match table_get source (ADDR_TABLE w) with
      | Some _ => ADDR_TABLE w
      | None => table_put source i (ADDR_TABLE w)
      end /\
    bridgeInfo w' = bridgeInfo w /\
    PORTS w' = PORTS w /\
    thread_ADDR_TABLE w' = thread_ADDR_TABLE w /\
    match table_get dest (ADDR_TABLE w') with
    | Some j =>
        if Nat.eqb j i then wire w' = wire w
        else exists p, nth_error (PORTS w) j = Some p /\
                       wire w' = wire w ++ (if Port.is_enabled p then Port.send data p else [])
    | None =>
        wire w' =
          wire w ++ flat_map (fun ip =>
                      if negb (Nat.eqb (fst ip) i) && Port.is_enabled (snd ip)
                      then Port.send data (snd ip)
                      else []) (enumerate (PORTS w))
    end.
Proof.
  unfold sending_data, flood, table_contains, table_setitem, table_getitem.
  intros H. unfold_monad H.
  destruct (py_getitem message "source") as [source|] eqn:Es; [|discriminate].
  destruct (hashable source) eqn:Hs; [|discriminate].
  destruct (py_getitem message "dest") as [dest|] eqn:Ed.
  2:{ exec H. }
  exists source, dest. do 3 (split; [solve [auto]|]).
  exec H; inversion H; subst; world; cbn;
    repeat match goal with
           | E : ?x = _ |- context [?x] => rewrite E
           end; cbn.
  all: repeat (split; [reflexivity|]).
  all: try reflexivity.
  all: try (now rewrite app_nil_r).
  all: repeat match goal with
              | E : negb ?b = _ |- _ => destruct b eqn:?; try discriminate E; clear E
              | E : Some _ = Some _ |- _ => inversion E; subst; clear E
              end.
  all: try reflexivity.
  all: try (eexists; split; [first [eassumption | reflexivity]|]).
  all: repeat match goal with
              | E : ?x = _ |- context [?x] => rewrite E
              end.
  all: try reflexivity.
  all: try (now rewrite app_nil_r).
Qed.

(** ** Startup *)

(** [l.index(x)] is the first place of [x] in [l]. *)
Lemma index_spec x l k :
  index x l = Some k ->
  nth_error l k = Some x /\ forall j, (j < k)%nat -> nth_error l j <> Some x.
Proof.
  revert k; induction l as [|y l IH]; intros k; simpl; [discriminate|].
  destruct (Z.eqb_spec y x) as [->|Hne].
  - intros H; inversion H; subst. split; [reflexivity|]. intros j Hj; lia.
  - destruct (index x l) as [k'|]; simpl; [|discriminate].
    intros H; inversion H; subst. destruct (IH k' eq_refl) as [Hk Hlt].
    split; [exact Hk|]. intros [|j] Hj; simpl.
    + congruence.
    + apply Hlt. lia.
Qed.

(** It is defined, and not after [i], as soon as [x] stands at [i]. *)
Lemma index_nth_error x l i :
  nth_error l i = Some x -> exists k, index x l = Some k /\ (k <= i)%nat.
Proof.
  revert i; induction l as [|y l IH]; intros [|i]; simpl; try discriminate.
  - intros H; inversion H; subst. rewrite Z.eqb_refl. exists 0%nat. split; [reflexivity|lia].
  - intros H. destruct (Z.eqb y x); [exists 0%nat; split; [reflexivity|lia]|].
    destruct (IH i H) as (k & -> & Hk). exists (S k). split; [reflexivity|lia].
Qed.

(** The Port that [main] builds for the attachment at place [i]. *)
Lemma append_ports_run (l : list (nat * Z)) w :
  (forall il, In il l -> In (snd il) (lan_ports args)) ->
  exists out,
    for_each l (append_port args) w =
    (Ok tt,
     {| bridgeInfo := bridgeInfo w;
        PORTS := PORTS w ++
                 map (fun il => snd (Port.init (fst il) (snd il)
                         (match index (snd il) (lan_ports args) with
                          | Some k => Nat.ltb k (fst il)
                          | None => false
                          end))) l;
        ADDR_TABLE := ADDR_TABLE w;
        thread_ADDR_TABLE := thread_ADDR_TABLE w;
        stdout := stdout w ++ out;
        wire := wire w |}).
Proof.
  revert w; induction l as [|il l IH]; intros w Hin; simpl.
  - exists []. destruct w; cbn. now rewrite !app_nil_r.
  - unfold bind. unfold append_port at 1, get_port_from_lan_port.
    cbv beta iota zeta delta [bind ret raise lift gets modify print].
    assert (Hil : In (snd il) (lan_ports args)) by (apply Hin; now left).
    apply In_nth_error in Hil. destruct Hil as [i Hi].
    destruct (@index_nth_error _ _ _ Hi) as (k & Hk & _). rewrite Hk, writable_init.
    destruct (IH (with_PORTS (fun ports => ports ++
                  [snd (Port.init (fst il) (snd il) (Nat.ltb k (fst il)))])
                (with_stdout (fun out => out ++
                  [fst (Port.init (fst il) (snd il) (Nat.ltb k (fst il)))]) w)))
      as [out Hrun].
    { intros il' H'. apply Hin. now right. }
    rewrite Hrun. eexists. cbn. rewrite <- !app_assoc. reflexivity.
Qed.

Lemma in_enumerate_in (A : Type) (l : list A) (il : nat * A) :
  In il (enumerate l) -> In (snd il) l.
Proof.
  destruct il as [i x]. rewrite in_enumerate. apply nth_error_In.
Qed.

Lemma startup_ports :
  PORTS (startup args) =
  map (fun il => snd (Port.init (fst il) (snd il)
          (match index (snd il) (lan_ports args) with
           | Some k => Nat.ltb k (fst il)
           | None => false
           end))) (enumerate (lan_ports args)) /\
  bridgeInfo (startup args) = BridgeInfo.init (bridge_id args) /\
  ADDR_TABLE (startup args) = [] /\
  thread_ADDR_TABLE (startup args) = None /\
  wire (startup args) = [].
Proof.
  unfold startup, setup.
  cbv beta iota zeta delta [bind ret raise lift gets ask modify print writable].
  destruct (append_ports_run (enumerate (lan_ports args))
              (with_stdout (fun out => out ++ [Bridge_starting_up]) (blank args)))
    as [out Hrun].
  { intros il. apply in_enumerate_in. }
  rewrite Hrun. cbn. destruct (encodable (bridge_id args)); cbn; auto.
Qed.

Lemma startup_port i p :
  nth_error (PORTS (startup args)) i = Some p <->
  exists lan k,
    nth_error (lan_ports args) i = Some lan /\
    index lan (lan_ports args) = Some k /\
    p = snd (Port.init i lan (Nat.ltb k i)).
Proof.
  destruct startup_ports as [-> _]. split.
  - intros H. destruct (nth_error (enumerate (lan_ports args)) i) as [[j lan]|] eqn:E.
    2:{ rewrite nth_error_map, E in H. discriminate. }
    rewrite nth_error_map, E in H. cbn in H. inversion H; subst; clear H.
    assert (Hin : In (j, lan) (enumerate (lan_ports args))) by (eapply nth_error_In; eauto).
    apply in_enumerate in Hin.
    assert (j = i).
    { unfold enumerate in E. assert (Hlt : (i < List.length (lan_ports args))%nat).
      { apply nth_error_Some. intros Hn. apply nth_error_None in Hn.
        assert (Hl : (List.length (combine (seq 0 (List.length (lan_ports args))) (lan_ports args))
                      <= i)%nat) by (rewrite length_combine, length_seq; lia).
        apply nth_error_None in Hl. congruence. }
      destruct (nth_error (lan_ports args) i) as [x|] eqn:Ex;
        [|apply nth_error_None in Ex; lia].
      apply (nth_error_combine_seq _ 0) in Ex. cbn in Ex. congruence. }
    subst j. destruct (@index_nth_error _ _ _ Hin) as (k & Hk & _).
    exists lan, k. rewrite Hk. auto.
  - intros (lan & k & Hlan & Hk & ->).
    apply (nth_error_combine_seq _ 0) in Hlan. cbn in Hlan.
    rewrite nth_error_map. unfold enumerate. rewrite Hlan. cbn. now rewrite Hk.
Qed.

Lemma startup_indexed : ports_indexed (startup args).
Proof.
  intros i p H. apply startup_port in H. destruct H as (lan & k & _ & _ & ->). reflexivity.
Qed.

(** The ids never change, so they stay the places. *)
Lemma same_attachments_indexed w : same_attachments args w -> ports_indexed w.
Proof.
  intros Hsame i p Hp.
  assert (H : nth_error (map attachment (PORTS w)) i = Some (attachment p))
    by (rewrite nth_error_map, Hp; reflexivity).
  rewrite Hsame, nth_error_map in H.
  destruct (nth_error (PORTS (startup args)) i) as [q|] eqn:Eq; [|discriminate].
  cbn in H. injection H as Hid _ _. rewrite <- Hid. now apply startup_indexed.
Qed.

Lemma update_min_cost_spec c p :
  Port.min_cost (Port.update_min_cost c p) = Z.min (Port.min_cost p) c /\
  attachment (Port.update_min_cost c p) = attachment p /\
  Port.enabled (Port.update_min_cost c p) = Port.enabled p.
Proof.
  unfold Port.update_min_cost. destruct (Z.ltb_spec c (Port.min_cost p)); cbn; repeat split; lia.
Qed.

(** A frame that names the current root and is not judged better does not
    advertise a cost two or more below the bridge's own. *)
Lemma better_false r c s root cost next_hop :
  better r c s root cost next_hop = Ok false ->
  py_eq r root = true -> (c + 1 <? cost) = false.
Proof.
  unfold better, rbind. intros H Heq. rewrite Heq in H.
  destruct (py_lt r root) as [[|]|]; try discriminate.
  cbn in H. now destruct (c + 1 <? cost).
Qed.

(** ** Invariants of the reachable states *)

Lemma attachment_reset i c (l : list Port.t) :
  map attachment
    (map (fun port => if negb (Nat.eqb (Port.id port) i)
                      then Port.set_min_cost 999999 port
                      else Port.set_min_cost c port) l) =
  map attachment l.
Proof.
  rewrite map_map. apply map_ext. intros p. now destruct (negb _).
Qed.

Lemma nth_error_reset i c (l : list Port.t) j p :
  nth_error
    (map (fun port => if negb (Nat.eqb (Port.id port) i)
                      then Port.set_min_cost 999999 port
                      else Port.set_min_cost c port) l) j = Some p ->
  exists q, nth_error l j = Some q /\
            attachment p = attachment q /\
            Port.enabled p = Port.enabled q /\
            Port.min_cost p = if Nat.eqb (Port.id q) i then c else 999999.
Proof.
  rewrite nth_error_map. destruct (nth_error l j) as [q|]; [|discriminate].
  cbn. intros H; inversion H; subst. exists q. split; [reflexivity|].
  now destruct (Nat.eqb (Port.id q) i).
Qed.

(** [update_bpdu] keeps the attachments, the bridge's own id, and the
    [min_cost] of the root port one below the bridge's cost. *)
Lemma update_bpdu_invariant message i u w w' :
  same_attachments args w ->
  root_port_min_cost w ->
  update_bpdu args int_of_str message i w = (Ok u, w') ->
  same_attachments args w' /\
  root_port_min_cost w' /\
  BridgeInfo.bridge_id (bridgeInfo w') = BridgeInfo.bridge_id (bridgeInfo w).
Proof.
  intros Hsame Hroot H. unfold root_port_min_cost in *.
  pose proof (same_attachments_indexed Hsame) as Hidx.
  apply update_bpdu_ok in H.
  destruct H as (body & r & craw & c & s & b & w1 & _ & _ & _ & _ & _ & Hb & Hstep & Hd).
  apply designate_ok in Hd.
  destruct Hd as (Hbi & _ & _ & _ & Hports).
  destruct b.
  - apply adopt_ok in Hstep.
    destruct Hstep as (lower & _ & _ & Hbi1 & Hp1 & _).
    assert (Hsame1 : map attachment (PORTS w1) = map attachment (PORTS w))
      by (rewrite Hp1; apply attachment_reset).
    rewrite Hbi, Hbi1. cbn.
    destruct Hports as [[_ Hp] | [_ (p & p' & keep & Hnth & _ & Hp & Hatt & Hmin & _)]].
    + repeat split.
      * unfold same_attachments. now rewrite Hp, Hsame1.
      * intros j q Hj Hq. cbn in *. apply Nat2Z.inj in Hj. subst j.
        rewrite Hp, Hp1 in Hq. apply nth_error_reset in Hq.
        destruct Hq as (q0 & Hq0 & _ & _ & ->).
        rewrite (Hidx _ _ Hq0), Nat.eqb_refl. lia.
    + repeat split.
      * unfold same_attachments. rewrite Hp.
        rewrite (map_replace_nth attachment _ _ p' Hnth Hatt). now rewrite Hsame1.
      * intros j q Hj Hq. cbn in *. apply Nat2Z.inj in Hj. subst j.
        rewrite Hp, (nth_error_replace_nth_eq _ _ p' Hnth) in Hq.
        inversion Hq; subst q. rewrite Hmin.
        rewrite Hp1 in Hnth. apply nth_error_reset in Hnth.
        destruct Hnth as (q0 & Hq0 & _ & _ & Hm).
        rewrite (Hidx _ _ Hq0), Nat.eqb_refl in Hm.
        destruct (update_min_cost_spec c p) as [-> _]. lia.
  - destruct Hstep as [_ Hw1].
    assert (Hcost : BridgeInfo.cost (bridgeInfo w1) = BridgeInfo.cost (bridgeInfo w) /\
                    BridgeInfo.root_port (bridgeInfo w1) = BridgeInfo.root_port (bridgeInfo w) /\
                    BridgeInfo.root_id (bridgeInfo w1) = BridgeInfo.root_id (bridgeInfo w) /\
                    BridgeInfo.bridge_id (bridgeInfo w1) = BridgeInfo.bridge_id (bridgeInfo w) /\
                    PORTS w1 = PORTS w)
      by (destruct Hw1; subst w1; cbn; auto).
    destruct Hcost as (Hc & Hrp & Hri & Hid & Hp1).
    rewrite Hbi.
    destruct Hports as [[_ Hp] | [Heq (p & p' & keep & Hnth & _ & Hp & Hatt & Hmin & _)]].
    + repeat split; auto.
      * unfold same_attachments. now rewrite Hp, Hp1.
      * intros j q Hj Hq. rewrite Hc. rewrite Hrp in Hj. rewrite Hp, Hp1 in Hq. eauto.
    + repeat split; auto.
      * unfold same_attachments. rewrite Hp.
        rewrite (map_replace_nth attachment _ _ p' Hnth Hatt). now rewrite Hp1.
      * intros j q Hj Hq. rewrite Hc. rewrite Hrp in Hj. rewrite Hp in Hq.
        destruct (Nat.eq_dec i j) as [->|Hne].
        -- rewrite (nth_error_replace_nth_eq _ _ p' Hnth) in Hq. inversion Hq; subst q.
           rewrite Hmin. rewrite Hp1 in Hnth. pose proof (Hroot _ _ Hj Hnth) as Hpm.
           rewrite Hri in Heq. pose proof (better_false _ _ _ _ _ _ Hb Heq) as Hlt.
           destruct (update_min_cost_spec c p) as [-> _].
           apply Z.ltb_ge in Hlt. lia.
        -- rewrite (nth_error_replace_nth_neq _ p' Hne), Hp1 in Hq. eauto.
Qed.

(** The course of one turn of the event loop when it returns. *)
Lemma receive_ok d w w' :
  receive args int_of_str d w = (Ok tt, w') ->
  exists message i type,
    loads d = Some message /\
    get_port_from_lan_port args (from d) = Ok i /\
    py_getitem message "type" = Ok type /\
    if py_eq type (PStr "bpdu")
    then exists u w1,
           update_bpdu args int_of_str message i w = (Ok u, w1) /\
           w' = if u then rebind_ADDR_TABLE w1 else w1
    else exists p,
           nth_error (PORTS w) i = Some p /\
           if Port.is_enabled p
           then exists source n dest,
                  sending_data (Bytes (data d)) message i
                    (with_stdout (fun out => out ++ [Received source n i dest]) w)
                  = (Ok tt, w')
           else w' = w.
Proof.
  unfold receive. intros H. unfold_monad H.
  destruct (loads d) as [message|]; [|discriminate].
  destruct (get_port_from_lan_port args (from d)) as [i|]; [|discriminate].
  destruct (py_getitem message "type") as [type|] eqn:Etype; [|discriminate].
  exists message, i, type. do 3 (split; [solve [auto]|]).
  destruct (py_eq type (PStr "bpdu")); cbv iota.
  - destruct (update_bpdu args int_of_str message i w) as [[u|] w1]; [|discriminate].
    exists u, w1. split; [reflexivity|]. destruct u; now inversion H.
  - destruct (nth_error (PORTS w) i) as [p|]; [|discriminate].
    exists p. split; [reflexivity|]. cbv beta iota zeta in H.
    destruct (Port.is_enabled p); cbv iota; [|now inversion H].
    destruct (py_getitem message "source") as [source|]; [|discriminate].
    destruct (py_getitem message "msg_id") as [msg_id|]; [|discriminate].
    destruct (py_getitem message "dest") as [dest|]; [|discriminate].
    destruct (py_format_d msg_id) as [n|]; [|discriminate].
    destruct (printable source && printable dest); [|discriminate].
    exists source, n, dest. exact H.
Qed.

(** Every reachable state has the Ports of startup, the bridge's own id, and
    on its root port the [min_cost] its cost was computed from. *)
Lemma reachable_invariant w :
  reachable args int_of_str w ->
  same_attachments args w /\
  root_port_min_cost w /\
  BridgeInfo.bridge_id (bridgeInfo w) = bridge_id args.
Proof.
  induction 1 as [ | d w w' _ IH H | message i u w w' _ IH H
                 | data message i w w' _ IH H | w _ IH | w _ IH ].
  - destruct startup_ports as (_ & Hbi & _). repeat split.
    + intros i p Hrp. rewrite Hbi in Hrp. cbn in Hrp. lia.
    + now rewrite Hbi.
  - destruct IH as (Hsame & Hroot & Hid).
    apply receive_ok in H. destruct H as (message & i & type & _ & _ & _ & H).
    destruct (py_eq type (PStr "bpdu")).
    + destruct H as (u & w1 & Hu & ->).
      destruct (update_bpdu_invariant _ _ Hsame Hroot Hu) as (Hs1 & Hr1 & Hi1).
      rewrite <- Hid, <- Hi1. destruct u; auto.
    + destruct H as (p & _ & H). destruct (Port.is_enabled p); [|now subst].
      destruct H as (source & n & dest & H). apply sending_data_ok in H.
      destruct H as (_ & _ & _ & _ & _ & _ & _ & Hbi & Hp & _).
      cbn in Hbi, Hp. unfold same_attachments, root_port_min_cost in *.
      rewrite Hbi, Hp. auto.
  - destruct IH as (Hsame & Hroot & Hid).
    destruct (update_bpdu_invariant _ _ Hsame Hroot H) as (Hs1 & Hr1 & Hi1).
    rewrite <- Hid, <- Hi1. auto.
  - destruct IH as (Hsame & Hroot & Hid). apply sending_data_ok in H.
    destruct H as (_ & _ & _ & _ & _ & _ & _ & Hbi & Hp & _).
    unfold same_attachments, root_port_min_cost in *. rewrite Hbi, Hp. auto.
  - destruct IH as (Hsame & Hroot & Hid). unfold announce, send_bpdus.
    cbv beta iota zeta delta [bind ret raise lift gets ask tell modify print writable emit]. cbn. auto.
  - destruct IH as (Hsame & Hroot & Hid). unfold root_loss, none.
    cbv beta iota zeta delta [bind ret raise lift gets ask tell modify print writable emit]. cbn.
    destruct (2 <? _); cbn; auto.
Qed.

(** ** The designated-port decision *)

(** On a Port that can be enabled, and whose [min_cost] is one below the
    bridge's cost when it is the root port, the test of [update_bpdu] holds
    exactly in the three cases of the specification. *)
Lemma designated_spec port cost root_port s i keep :
  Port.permanently_disabled port = false ->
  (root_port = Z.of_nat i -> Port.min_cost port = cost - 1) ->
  designated args port cost root_port s i = Ok keep ->
  (keep = true <->
   root_port = Z.of_nat i \/
   Port.min_cost port >= cost + 1 \/
   (Port.min_cost port = cost /\ py_ge s (PStr (bridge_id args)) = Ok true)).
Proof.
  intros Hpd Hroot. unfold designated, Port.is_permanently_disabled, Port.get_min_cost, rbind.
  rewrite Hpd.
  destruct (Z.leb_spec (cost + 1) (Port.min_cost port)) as [Hx|Hx].
  { intros H; injection H as <-. split; auto. intros _. right; left. lia. }
  destruct (Z.eqb_spec (Port.min_cost port) cost) as [Hy|Hy].
  - destruct (py_ge s (PStr (bridge_id args))) as [[|]|] eqn:Ege; try discriminate.
    + intros H; injection H as <-. split; auto.
    + intros H; injection H as <-.
      destruct (Z.eqb_spec (Port.min_cost port) (cost - 1)) as [Hw|Hw]; [lia|].
      cbn. split; [discriminate|]. intros [Hr | [Hge | [_ Hge]]].
      * apply Hroot in Hr. lia.
      * lia.
      * discriminate.
  - intros H; injection H as <-.
    destruct (Z.eqb_spec (Port.min_cost port) (cost - 1)) as [Hw|Hw];
      destruct (Z.eqb_spec (Z.of_nat i) root_port) as [Hv|Hv]; cbn; split; auto;
      try discriminate; intros [Hr | [Hge | [Heq _]]]; try lia;
      try (symmetry in Hr; contradiction); apply Hroot in Hr; lia.
Qed.

(** When no step of the announcer falls inside a handler, the root port
    always has the [min_cost] the test asks of it: after [update_bpdu] has
    handled a control frame whose advertised root is the bridge's current
    root, the ingress Port, when it is not permanently disabled, is enabled
    if and only if it is the root port, or its (updated) [min_cost] is at
    least the bridge's cost plus one, or its [min_cost] equals the bridge's
    cost and the sender's id is at least the bridge's own id. *)
Lemma root_port_stays_enabled message i u w w' body r s port :
  reachable args int_of_str w ->
  update_bpdu args int_of_str message i w = (Ok u, w') ->
  py_getitem message "message" = Ok body ->
  py_getitem body "root" = Ok r ->
  py_getitem message "source" = Ok s ->
  py_eq r (BridgeInfo.root_id (bridgeInfo w')) = true ->
  nth_error (PORTS w') i = Some port ->
  Port.permanently_disabled port = false ->
  (Port.is_enabled port = true <->
   BridgeInfo.root_port (bridgeInfo w') = Z.of_nat i \/
   Port.min_cost port >= BridgeInfo.cost (bridgeInfo w') + 1 \/
   (Port.min_cost port = BridgeInfo.cost (bridgeInfo w') /\
    py_ge s (PStr (bridge_id args)) = Ok true)).
Proof.
  intros Hreach Hrun Hbody Hr Hs Hroot Hport Hpd.
  destruct (reachable_invariant Hreach) as (Hsame & Hrpm & _).
  destruct (update_bpdu_invariant _ _ Hsame Hrpm Hrun) as (_ & Hrpm' & _).
  apply update_bpdu_ok in Hrun.
  destruct Hrun as (body' & r' & craw & c & s' & b & w1 & Hbody' & Hr' & _ & _ & Hs' & _ & _ & Hd).
  rewrite Hbody in Hbody'. inversion Hbody'; subst body'.
  rewrite Hr in Hr'. inversion Hr'; subst r'.
  rewrite Hs in Hs'. inversion Hs'; subst s'.
  apply designate_ok in Hd. destruct Hd as (Hbi & _ & _ & _ & Hports).
  rewrite Hbi in *.
  destruct Hports as [[Hne _] | [_ (p & p' & keep & Hnth & Hkeep & Hp & Hatt & Hmin & Hen)]];
    [congruence|].
  rewrite Hp, (nth_error_replace_nth_eq _ _ p' Hnth) in Hport. inversion Hport; subst p'.
  injection Hatt as _ _ Hpd'. rewrite Hpd in Hpd'. symmetry in Hpd'.
  assert (Hie : Port.is_enabled port = keep).
  { unfold Port.is_enabled. rewrite Hpd, (Hen Hpd'). now destruct keep. }
  rewrite Hie, Hmin.
  apply designated_spec with (port := Port.update_min_cost c p); auto.
  - destruct (update_min_cost_spec c p) as (_ & Ha & _). injection Ha as _ _ Ha. congruence.
  - intros Hrp. rewrite <- Hmin. unfold root_port_min_cost in Hrpm'.
    rewrite Hbi in Hrpm'. eapply Hrpm'; eauto.
    rewrite Hp. now apply nth_error_replace_nth_eq with (y := p).
Qed.

(** *** The decision in every state *)

(** The test of [update_bpdu] on a Port that can be enabled, as it is
    written. *)
Lemma designated_test port cost root_port s i keep :
  Port.permanently_disabled port = false ->
  designated args port cost root_port s i = Ok keep ->
  (keep = true <->
   (root_port = Z.of_nat i /\ Port.min_cost port = cost - 1) \/
   Port.min_cost port >= cost + 1 \/
   (Port.min_cost port = cost /\ py_ge s (PStr (bridge_id args)) = Ok true)).
Proof.
  intros Hpd. unfold designated, Port.is_permanently_disabled, Port.get_min_cost, rbind.
  rewrite Hpd.
  destruct (Z.leb_spec (cost + 1) (Port.min_cost port)) as [Hx|Hx].
  { intros H; injection H as <-. split; auto. intros _. right; left. lia. }
  destruct (Z.eqb_spec (Port.min_cost port) cost) as [Hy|Hy].
  - destruct (py_ge s (PStr (bridge_id args))) as [[|]|] eqn:Ege; try discriminate.
    + intros H; injection H as <-. split; auto.
    + intros H; injection H as <-.
      destruct (Z.eqb_spec (Port.min_cost port) (cost - 1)) as [Hw|Hw]; [lia|].
      cbn. split; [discriminate|]. intros [[_ Hr] | [Hge | [_ Hge]]].
      * lia.
      * lia.
      * discriminate.
  - intros H; injection H as <-.
    destruct (Z.eqb_spec (Port.min_cost port) (cost - 1)) as [Hw|Hw];
      destruct (Z.eqb_spec (Z.of_nat i) root_port) as [Hv|Hv]; cbn; split; auto;
      try discriminate; intros [[Hr Hm] | [Hge | [Heq _]]]; try lia;
      symmetry in Hr; contradiction.
Qed.

(** [update_bpdu] is [elect] then [decide]: the handler that nothing
    interrupts. *)
Lemma update_bpdu_uninterrupted message i w :
  update_bpdu args int_of_str message i w =
  update_bpdu_interrupted args int_of_str (ret tt) message i w.
Proof.
  unfold update_bpdu, update_bpdu_interrupted, elect, decide.
  cbv beta iota zeta delta [bind ret lift ask gets tell modify].
  destruct (py_getitem message "message") as [body|]; [|reflexivity].
  destruct (py_getitem body "root") as [r|]; [|reflexivity].
  destruct (py_getitem body "cost") as [craw|]; [|reflexivity].
  destruct (py_int int_of_str craw) as [c|]; [|reflexivity].
  destruct (py_getitem message "source") as [s|]; [|reflexivity].
  match goal with
  | |- context [better ?a ?b ?c ?d ?e ?f] => destruct (better a b c d e f) as [[|]|]
  end; [| |reflexivity].
  - match goal with
    | |- context [adopt ?a ?m ?b ?c ?d ?e ?f ?g] =>
        destruct (adopt a m b c d e f g) as [[u|] w1]
    end; [|reflexivity].
    cbn [fst snd]. now destruct (designate args r c s i w1) as [[[]|] w2].
  - match goal with
    | |- context [reconfirms ?a ?b ?c ?d ?e ?f ?g] => destruct (reconfirms a b c d e f g)
    end; cbn [fst snd];
      match goal with
      | |- context [designate ?a ?b ?c ?d ?e ?f] =>
          now destruct (designate a b c d e f) as [[[]|] w2]
      end.
Qed.

(** The course of an interrupted handler that returns. *)
Lemma update_bpdu_interrupted_ok other message i u w w' :
  update_bpdu_interrupted args int_of_str other message i w = (Ok u, w') ->
  exists body r craw c s u1 w1,
    py_getitem message "message" = Ok body /\
    py_getitem body "root" = Ok r /\
    py_getitem body "cost" = Ok craw /\
    py_int int_of_str craw = Ok c /\
    py_getitem message "source" = Ok s /\
    elect args int_of_str message i w = (Ok (r, c, s, u1), w1) /\
    designate args r c s i (snd (other w1)) = (Ok tt, w').
Proof.
  unfold update_bpdu_interrupted, decide. intros H.
  cbv beta iota zeta delta [bind ret modify] in H.
  destruct (elect args int_of_str message i w) as [[[[[r c] s] u1]|] w1] eqn:He;
    [|discriminate].
  cbn [fst snd] in H.
  destruct (designate args r c s i (snd (other w1))) as [[[]|] w2] eqn:Hd; [|discriminate].
  injection H as <- <-.
  pose proof He as Helect.
  unfold elect in He. cbv beta iota zeta delta [bind ret lift ask gets tell] in He.
  destruct (py_getitem message "message") as [body|] eqn:Ebody; [|discriminate].
  destruct (py_getitem body "root") as [r0|] eqn:Er; [|discriminate].
  destruct (py_getitem body "cost") as [craw|] eqn:Ecraw; [|discriminate].
  destruct (py_int int_of_str craw) as [c0|] eqn:Ec; [|discriminate].
  destruct (py_getitem message "source") as [s0|] eqn:Es; [|discriminate].
  assert (Hl : r0 = r /\ c0 = c /\ s0 = s).
  { match type of He with
    | context [better ?a ?b ?c ?d ?e ?f] => destruct (better a b c d e f) as [[|]|]
    end; [| |discriminate].
    - match type of He with
      | context [adopt ?a ?m ?b ?c ?d ?e ?f ?g] =>
          destruct (adopt a m b c d e f g) as [[u2|] w3]
      end; [|discriminate].
      injection He as -> -> -> _ _. auto.
    - match type of He with
      | context [reconfirms ?a ?b ?c ?d ?e ?f ?g] => destruct (reconfirms a b c d e f g)
      end; injection He as -> -> -> _ _; auto. }
  destruct Hl as (-> & -> & ->).
  exists body, r, craw, c, s, u1, w1. auto 10.
Qed.

(** C3, as amended.  Take a control frame, a handler [update_bpdu] that
    returns, run on its own or with the announcer thread running anything
    between its [elif] and its last [if], and suppose the advertised root is
    the root the bridge holds at that last [if], which in these runs is the
    root it holds when the handler ends.  Then the ingress Port,
    when it is not permanently disabled, is enabled if and only if it is the
    root port and its (updated) [min_cost] is the bridge's cost minus one, or
    its [min_cost] is at least the bridge's cost plus one, or its [min_cost]
    equals the bridge's cost and the sender's id is at least the bridge's own
    id; otherwise it is disabled.  This holds from every state. *)
Theorem designated_port_test other message i u w w' body r s port :
  update_bpdu args int_of_str message i w = (Ok u, w') \/
  update_bpdu_interrupted args int_of_str other message i w = (Ok u, w') ->
  py_getitem message "message" = Ok body ->
  py_getitem body "root" = Ok r ->
  py_getitem message "source" = Ok s ->
  py_eq r (BridgeInfo.root_id (bridgeInfo w')) = true ->
  nth_error (PORTS w') i = Some port ->
  Port.permanently_disabled port = false ->
  (Port.is_enabled port = true <->
   (BridgeInfo.root_port (bridgeInfo w') = Z.of_nat i /\
    Port.min_cost port = BridgeInfo.cost (bridgeInfo w') - 1) \/
   Port.min_cost port >= BridgeInfo.cost (bridgeInfo w') + 1 \/
   (Port.min_cost port = BridgeInfo.cost (bridgeInfo w') /\
    py_ge s (PStr (bridge_id args)) = Ok true)).
Proof.
  intros Hrun Hbody Hr Hs Hroot Hport Hpd.
  assert (Hd : exists c w2, designate args r c s i w2 = (Ok tt, w')).
  { destruct Hrun as [Hrun|Hrun].
    - rewrite update_bpdu_uninterrupted in Hrun.
      apply update_bpdu_interrupted_ok in Hrun.
      destruct Hrun as (body' & r' & craw & c & s' & u1 & w1 & Hbody' & Hr' & _ & _ & Hs' & _ & Hd).
      rewrite Hbody in Hbody'. inversion Hbody'; subst body'.
      rewrite Hr in Hr'. inversion Hr'; subst r'.
      rewrite Hs in Hs'. inversion Hs'; subst s'. eauto.
    - apply update_bpdu_interrupted_ok in Hrun.
      destruct Hrun as (body' & r' & craw & c & s' & u1 & w1 & Hbody' & Hr' & _ & _ & Hs' & _ & Hd).
      rewrite Hbody in Hbody'. inversion Hbody'; subst body'.
      rewrite Hr in Hr'. inversion Hr'; subst r'.
      rewrite Hs in Hs'. inversion Hs'; subst s'. eauto. }
  destruct Hd as (c & w2 & Hd).
  apply designate_ok in Hd. destruct Hd as (Hbi & _ & _ & _ & Hports).
  rewrite Hbi in *.
  destruct Hports as [[Hne _] | [_ (p & p' & keep & Hnth & Hkeep & Hp & Hatt & Hmin & Hen)]];
    [congruence|].
  rewrite Hp, (nth_error_replace_nth_eq _ _ p' Hnth) in Hport. inversion Hport; subst p'.
  injection Hatt as _ _ Hpd'. rewrite Hpd in Hpd'. symmetry in Hpd'.
  assert (Hie : Port.is_enabled port = keep).
  { unfold Port.is_enabled. rewrite Hpd, (Hen Hpd'). now destruct keep. }
  rewrite Hie, Hmin.
  apply designated_test with (port := Port.update_min_cost c p); auto.
  destruct (update_min_cost_spec c p) as (_ & Ha & _). injection Ha as _ _ Ha. congruence.
Qed.

(** ** Adoption of a better frame *)


(** A frame judged better without a lower root names the current root. *)
Lemma better_same_root r c s root cost next_hop :
  better r c s root cost next_hop = Ok true ->
  py_lt r root = Ok false ->
  py_eq r root = true.
Proof.
  unfold better, rbind. intros H Hlt. rewrite Hlt in H.
  destruct (py_eq r root); [reflexivity|discriminate].
Qed.



(** Every LAN of the command line has a Port that may send to it: the first
    one built for it. *)
Lemma first_port_sends w lan :
  same_attachments args w ->
  In lan (lan_ports args) ->
  exists k q,
    index lan (lan_ports args) = Some k /\
    nth_error (PORTS w) k = Some q /\
    attachment q = (k, lan, false).
Proof.
  intros Hsame Hin. apply In_nth_error in Hin. destruct Hin as [i Hi].
  destruct (@index_nth_error _ _ _ Hi) as (k & Hk & _).
  destruct (index_spec _ _ Hk) as [Hnth _].
  assert (Hs : nth_error (PORTS (startup args)) k = Some (snd (Port.init k lan (Nat.ltb k k)))).
  { apply startup_port. exists lan, k. auto. }
  rewrite Nat.ltb_irrefl in Hs.
  assert (Ha : nth_error (map attachment (PORTS w)) k = Some (k, lan, false)).
  { now rewrite Hsame, nth_error_map, Hs. }
  rewrite nth_error_map in Ha.
  destruct (nth_error (PORTS w) k) as [q|] eqn:Eq; [|discriminate].
  exists k, q.
  assert (Hq : attachment q = (k, lan, false)) by (unfold option_map in Ha; congruence).
  auto.
Qed.


(** ** Forwarding and learning *)

Lemma flat_map_send (data : payload) (keep : nat * Port.t -> bool) (l : list (nat * Port.t)) :
  (forall ip, In ip l -> keep ip = true -> Port.is_enabled (snd ip) = true) ->
  flat_map (fun ip => if keep ip then Port.send data (snd ip) else []) l =
  map (fun ip => {| via := Port.id (snd ip); to := Port.lan_port (snd ip); sent := data |})
      (filter keep l).
Proof.
  induction l as [|ip l IH]; intros Hen; cbn; [reflexivity|].
  rewrite IH by (intros ip' Hin; apply Hen; now right).
  destruct (keep ip) eqn:Ek; [|reflexivity].
  assert (He : Port.is_enabled (snd ip) = true) by (apply Hen; auto; now left).
  unfold Port.is_enabled in He. apply andb_prop in He. destruct He as [_ He].
  unfold Port.send. now rewrite He.
Qed.

(** C7.  [sending_data], once it has learnt the source, looks the
    destination up in the table: a destination mapped to an enabled port
    other than the ingress port gets the raw frame on that port only; a
    destination mapped to the ingress port, or to a disabled port, gets
    nothing; an unknown destination gets the raw frame on every enabled port
    except the ingress port. *)
Theorem data_frame_forwarding data message i w w' dest :
  sending_data data message i w = (Ok tt, w') ->
  py_getitem message "dest" = Ok dest ->
  PORTS w' = PORTS w /\
  (forall j p,
     table_get dest (ADDR_TABLE w') = Some j ->
     j <> i -> nth_error (PORTS w) j = Some p -> Port.is_enabled p = true ->
     wire w' = wire w ++ [ {| via := Port.id p; to := Port.lan_port p; sent := data |} ]) /\
  (forall j,
     table_get dest (ADDR_TABLE w') = Some j ->
     (j = i \/ exists p, nth_error (PORTS w) j = Some p /\ Port.is_enabled p = false) ->
     wire w' = wire w) /\
  (table_get dest (ADDR_TABLE w') = None ->
   wire w' =
     wire w ++
     map (fun ip => {| via := Port.id (snd ip); to := Port.lan_port (snd ip); sent := data |})
         (filter (fun ip => negb (Nat.eqb (fst ip) i) && Port.is_enabled (snd ip))
                 (enumerate (PORTS w))) /\
   forall x,
     In x (map (fun ip => {| via := Port.id (snd ip); to := Port.lan_port (snd ip);
                             sent := data |})
               (filter (fun ip => negb (Nat.eqb (fst ip) i) && Port.is_enabled (snd ip))
                       (enumerate (PORTS w)))) <->
     exists j p, nth_error (PORTS w) j = Some p /\ j <> i /\ Port.is_enabled p = true /\
                 x = {| via := Port.id p; to := Port.lan_port p; sent := data |}).
Proof.
  intros H Hdest. apply sending_data_ok in H.
  destruct H as (source & dest' & _ & Hdest' & _ & _ & _ & _ & Hports & _ & Hwire).
  rewrite Hdest in Hdest'. injection Hdest' as <-.
  split; [exact Hports|]. split; [|split].
  - intros j p Hj Hne Hp Hen. rewrite Hj in Hwire.
    apply Nat.eqb_neq in Hne. rewrite Hne in Hwire.
    destruct Hwire as (p' & Hp' & ->). rewrite Hp in Hp'. injection Hp' as <-.
    rewrite Hen. unfold Port.send. unfold Port.is_enabled in Hen.
    apply andb_prop in Hen. destruct Hen as [_ ->]. reflexivity.
  - intros j Hj Hcase. rewrite Hj in Hwire.
    destruct (Nat.eqb_spec j i) as [Heq|Hne]; [exact Hwire|].
    destruct Hcase as [Heq|(p & Hp & Hen)]; [contradiction|].
    destruct Hwire as (p' & Hp' & ->). rewrite Hp in Hp'. injection Hp' as <-.
    rewrite Hen. apply app_nil_r.
  - intros Hnone. rewrite Hnone in Hwire. split.
    + rewrite Hwire. f_equal. apply flat_map_send.
      intros ip _ Hk. apply andb_prop in Hk. tauto.
    + intros x. rewrite in_map_iff. split.
      * intros ([j p] & <- & Hin). apply filter_In in Hin. destruct Hin as [Hin Hk].
        apply in_enumerate in Hin. apply andb_prop in Hk. destruct Hk as [Hne Hen].
        cbn in *. exists j, p. repeat split; auto.
        apply Nat.eqb_neq. now destruct (Nat.eqb j i).
      * intros (j & p & Hp & Hne & Hen & ->). exists (j, p). split; [reflexivity|].
        apply filter_In. split; [now apply in_enumerate|]. cbn.
        apply Nat.eqb_neq in Hne. now rewrite Hne, Hen.
Qed.

(** C9.  The learning step of [sending_data] records the source on the
    ingress port only when the table has no entry for it, so a second frame
    from that source, on the same port or on another, leaves the table as the
    first frame left it. *)
Theorem learning_is_first_sight data message i w w1 source :
  sending_data data message i w = (Ok tt, w1) ->
  py_getitem message "source" = Ok source ->
  ADDR_TABLE w1 =
    match table_get source (ADDR_TABLE w) with
    | Some _ => ADDR_TABLE w
    | None => ADDR_TABLE w ++ [(source, i)]
    end /\
  forall data' message' i' w2,
    py_getitem message' "source" = Ok source ->
    sending_data data' message' i' w1 = (Ok tt, w2) ->
    ADDR_TABLE w2 = ADDR_TABLE w1.
Proof.
  intros H Hsource. apply sending_data_ok in H.
  destruct H as (source' & dest & Hsource' & _ & _ & _ & Htable & _).
  rewrite Hsource in Hsource'. injection Hsource' as <-.
  assert (Hknown : exists p, table_get source (ADDR_TABLE w1) = Some p).
  { rewrite Htable. destruct (table_get source (ADDR_TABLE w)) as [p|] eqn:E; [eauto|].
    exists i. apply table_get_put. }
  split.
  - rewrite Htable. destruct (table_get source (ADDR_TABLE w)) eqn:E; [reflexivity|].
    now apply table_put_absent.
  - intros data' message' i' w2 Hsource2 H2. apply sending_data_ok in H2.
    destruct H2 as (source2 & dest2 & Hs2 & _ & _ & _ & Htable2 & _).
    rewrite Hsource2 in Hs2. injection Hs2 as <-.
    destruct Hknown as [p Hp]. now rewrite Hp in Htable2.
Qed.

(** ** Attachments *)

(** C10.  The Port built at place [i] of the attachment list is permanently
    disabled exactly when its LAN already stands at an earlier place.  A
    datagram from that LAN is attributed to the first Port built for it
    ([get_port_from_lan_port]), which is never permanently disabled, and in
    every reachable state a send on the Port at place [i] reaches the LAN
    only when [i] is that first place. *)
Theorem duplicate_attachment_is_permanently_disabled i lan :
  nth_error (lan_ports args) i = Some lan ->
  exists first p p0,
    get_port_from_lan_port args lan = Ok first /\
    (first <= i)%nat /\
    nth_error (lan_ports args) first = Some lan /\
    (forall j, (j < first)%nat -> nth_error (lan_ports args) j <> Some lan) /\
    nth_error (PORTS (startup args)) i = Some p /\
    Port.id p = i /\
    Port.lan_port p = lan /\
    (Port.permanently_disabled p = true <->
     exists j, (j < i)%nat /\ nth_error (lan_ports args) j = Some lan) /\
    nth_error (PORTS (startup args)) first = Some p0 /\
    Port.permanently_disabled p0 = false /\
    forall w q data root cost,
      reachable args int_of_str w ->
      nth_error (PORTS w) i = Some q ->
      Port.send data q =
        (if Nat.eqb i first then [ {| via := first; to := lan; sent := data |} ] else []) /\
      Port.send_bpdu (bridge_id args) root cost q =
        (if Nat.eqb i first
         then [ {| via := first; to := lan;
                   sent := Dumps (Port.bpdu (bridge_id args) root cost first) |} ]
         else []).
Proof.
  intros Hi.
  destruct (@index_nth_error _ _ _ Hi) as (first & Hfirst & Hle).
  destruct (index_spec _ _ Hfirst) as [Hnth Hmin].
  exists first, (snd (Port.init i lan (Nat.ltb first i))),
         (snd (Port.init first lan (Nat.ltb first first))).
  assert (Hpi : nth_error (PORTS (startup args)) i =
                Some (snd (Port.init i lan (Nat.ltb first i))))
    by (apply startup_port; exists lan, first; auto).
  unfold get_port_from_lan_port. rewrite Hfirst.
  do 7 (split; [solve [auto]|]). split; [|split; [|split]].
  - change (Port.permanently_disabled (snd (Port.init i lan (Nat.ltb first i))))
      with (Nat.ltb first i).
    rewrite Nat.ltb_lt. split.
    + intros Hlt. exists first. auto.
    + intros (j & Hj & Hlan). destruct (Nat.lt_ge_cases j first) as [Hjf|Hjf]; [|lia].
      exfalso. exact (Hmin j Hjf Hlan).
  - apply startup_port. exists lan, first. auto.
  - change (Port.permanently_disabled (snd (Port.init first lan (Nat.ltb first first))))
      with (Nat.ltb first first).
    apply Nat.ltb_irrefl.
  - intros w q data root cost Hreach Hq.
    destruct (reachable_invariant Hreach) as (Hsame & _ & _).
    assert (Ha : attachment q = (i, lan, Nat.ltb first i)).
    { assert (H : nth_error (map attachment (PORTS w)) i = Some (attachment q))
        by (rewrite nth_error_map, Hq; reflexivity).
      rewrite Hsame, nth_error_map, Hpi in H. unfold option_map in H.
      transitivity (attachment (snd (Port.init i lan (Nat.ltb first i))));
        [congruence | reflexivity]. }
    injection Ha as Hid Hlan Hpd. unfold Port.send_bpdu, Port.send. rewrite Hid, Hlan, Hpd.
    destruct (Nat.eqb_spec i first) as [->|Hne].
    + rewrite Nat.ltb_irrefl. cbn. auto.
    + assert (Hlt : (first <? i)%nat = true) by (apply Nat.ltb_lt; lia).
      rewrite Hlt. cbn. auto.
Qed.

(** ** [min_cost] between election updates *)






(** ** Malformed frames *)

(** [update_bpdu] reads the fields of the frame before it changes anything. *)
Lemma update_bpdu_lacks message i w :
  (lacks message "source" \/ lacks message "message" \/
   exists body, py_getitem message "message" = Ok body /\
                (lacks body "root" \/ lacks body "cost")) ->
  exists e, update_bpdu args int_of_str message i w = (Raise e, w).
Proof.
  intros H. unfold update_bpdu.
  cbv beta iota zeta delta
    [bind ret raise lift gets ask tell modify
     BridgeInfo.get_root_id BridgeInfo.get_cost BridgeInfo.get_next_hop].
  destruct (py_getitem message "message") as [body|e] eqn:Ebody; [|eauto].
  destruct (py_getitem body "root") as [r|e] eqn:Er; [|eauto].
  destruct (py_getitem body "cost") as [craw|e] eqn:Ecraw; [|eauto].
  destruct (py_int int_of_str craw) as [c|e]; [|eauto].
  destruct (py_getitem message "source") as [s|e] eqn:Es; [|eauto].
  exfalso. destruct H as [[e H] | [[e H] | (body' & Hb & [[e H] | [e H]])]]; congruence.
Qed.

(** C2, as amended.  A malformed datagram is not discarded: when the payload
    does not decode, or lacks [type], or is a control frame that lacks
    [source], [message], [message.root] or [message.cost], or is a data frame
    that lacks [source], [msg_id] or [dest], the turn of the event loop ends
    in an exception that nothing catches, with the bridge as it was.  The one
    exception is a data frame received on a disabled port, which is ignored
    before any other field is read. *)
Theorem malformed_frame_raises d w :
  malformed d ->
  (exists e, receive args int_of_str d w = (Raise e, w)) \/
  (exists message type i p,
     loads d = Some message /\
     py_getitem message "type" = Ok type /\
     py_eq type (PStr "bpdu") = false /\
     get_port_from_lan_port args (from d) = Ok i /\
     nth_error (PORTS w) i = Some p /\
     Port.is_enabled p = false /\
     receive args int_of_str d w = (Ok tt, w)).
Proof.
  intros H. unfold receive.
  cbv beta iota zeta delta [bind ret raise lift gets ask tell modify print writable port_at].
  destruct H as [Hl | message Hl [e He] | message type Hl Ht Hb H | message type Hl Ht Hb H];
    rewrite Hl.
  - left. eauto.
  - left. destruct (get_port_from_lan_port args (from d)); [|eauto]. rewrite He. eauto.
  - left. destruct (get_port_from_lan_port args (from d)) as [i|]; [|eauto].
    rewrite Ht, Hb. destruct (@update_bpdu_lacks message i w H) as [e ->]. eauto.
  - destruct (get_port_from_lan_port args (from d)) as [i|] eqn:Ei; [|left; eauto].
    rewrite Ht, Hb. destruct (nth_error (PORTS w) i) as [p|] eqn:Ep; [|left; eauto].
    destruct (Port.is_enabled p) eqn:Een.
    + left.
      destruct (py_getitem message "source") as [source|] eqn:Es; [|eauto].
      destruct (py_getitem message "msg_id") as [msg_id|] eqn:Em; [|eauto].
      destruct (py_getitem message "dest") as [dest|] eqn:Ed; [|eauto].
      exfalso. destruct H as [[e H] | [[e H] | [e H]]]; congruence.
    + right. exists message, type, i, p. auto 10.
Qed.

End Properties.

(** * The example bridges *)

Lemma adopted_0001_reachable : reachable bridge_0002 decimal adopted_0001.
Proof.
  apply reach_receive with (d := control "0001" "0001" 0 5001) (w := startup bridge_0002).
  - apply reach_startup.
  - vm_compute. reflexivity.
Qed.

Lemma learnt_h1_reachable : reachable bridge_0002 decimal learnt_h1.
Proof.
  apply reach_receive with (d := data_frame "h1" "h2" 5001) (w := adopted_0001).
  - apply adopted_0001_reachable.
  - vm_compute. reflexivity.
Qed.

Lemma third_announce_reachable : reachable bridge_0002 decimal third_announce.
Proof.
  apply (reach_announce (w := two_silent_turns)).
  assert (E : two_silent_turns =
              snd (root_loss (snd (announce bridge_0002
                (snd (root_loss (snd (announce bridge_0002 learnt_h1))))))))
    by (vm_compute; reflexivity).
  rewrite E. do 2 (apply reach_root_loss; apply reach_announce).
  apply learnt_h1_reachable.
Qed.


(** C1.  Bridge 0002 has adopted root 0001 through its first port (cost 1)
    and learnt host h1; after three announcer turns without a frame from
    0001 the counter is 3 and the root-loss branch runs.  It sets the root
    and the next hop to 0002 and then raises [NameError] at [none]: the cost
    stays 1, the root port stays 0 and the table keeps h1. *)
Theorem root_loss_stops_at_none :
  BridgeInfo.unconfirmed (bridgeInfo third_announce) = 3 /\
  fst (root_loss third_announce) = Raise (NameError "none") /\
  BridgeInfo.root_id (bridgeInfo after_root_loss) = PStr "0002" /\
  BridgeInfo.next_hop (bridgeInfo after_root_loss) = PStr "0002" /\
  BridgeInfo.cost (bridgeInfo after_root_loss) = 1 /\
  BridgeInfo.root_port (bridgeInfo after_root_loss) = 0 /\
  ADDR_TABLE after_root_loss = [(PStr "h1", 0%nat)].
Proof.
  repeat match goal with |- _ /\ _ => split end; vm_compute; reflexivity.
Qed.

(** C6.  The state the failed root-loss branch leaves is reachable, names
    the bridge itself as root, and has neither cost 0 nor the root port -1
    the bridge started with. *)
Theorem self_root_with_stale_cost :
  reachable bridge_0002 decimal after_root_loss /\
  BridgeInfo.root_id (bridgeInfo after_root_loss)
    = PStr (BridgeInfo.bridge_id (bridgeInfo after_root_loss)) /\
  BridgeInfo.cost (bridgeInfo after_root_loss) = 1 /\
  BridgeInfo.root_port (bridgeInfo after_root_loss) = 0 /\
  BridgeInfo.root_port (bridgeInfo (startup bridge_0002)) = -1.
Proof.
  split; [|repeat match goal with |- _ /\ _ => split end; vm_compute; reflexivity].
  apply reach_root_loss. apply third_announce_reachable.
Qed.

(** C5.  Bridge 0009 reaches root 0001 at cost 1 through 0003.  A frame from
    0002 that advertises the same root at cost 0, so the same resulting cost
    1, with a smaller sender id, is not judged better and changes nothing;
    a frame from 0002 that advertises the root at cost 1, so a resulting cost
    of 2, is judged better by the third disjunct and raises the cost to 2. *)
Theorem tie_break_compares_advertised_cost :
  BridgeInfo.cost (bridgeInfo via_0003) = 1 /\
  BridgeInfo.next_hop (bridgeInfo via_0003) = PStr "0003" /\
  better (PStr "0001") 0 (PStr "0002") (PStr "0001") 1 (PStr "0003") = Ok false /\
  bridgeInfo (snd (receive bridge_0009 decimal (control "0002" "0001" 0 5002) via_0003))
    = bridgeInfo via_0003 /\
  better (PStr "0001") 1 (PStr "0002") (PStr "0001") 1 (PStr "0003") = Ok true /\
  BridgeInfo.cost
    (bridgeInfo (snd (receive bridge_0009 decimal (control "0002" "0001" 1 5002) via_0003)))
    = 2 /\
  BridgeInfo.next_hop
    (bridgeInfo (snd (receive bridge_0009 decimal (control "0002" "0001" 1 5002) via_0003)))
    = PStr "0002".
Proof.
  repeat match goal with |- _ /\ _ => split end; vm_compute; reflexivity.
Qed.

(** ** Malformed datagrams at bridge 0002 *)

(** C2, a counterexample to the claim as stated.  At startup, a datagram
    that is not JSON and a datagram whose object has no [type] both end the
    turn of the event loop in an exception; neither is discarded. *)
Lemma malformed_frame_is_fatal :
  receive bridge_0002 decimal not_json (startup bridge_0002)
    = (Raise ValueError, startup bridge_0002) /\
  receive bridge_0002 decimal untyped (startup bridge_0002)
    = (Raise (KeyError (PStr "type")), startup bridge_0002).
Proof.
  split; vm_compute; reflexivity.
Qed.

Lemma malformed_frame_raises_witness :
  exists e, receive bridge_0002 decimal untyped (startup bridge_0002)
            = (Raise e, startup bridge_0002).
Proof.
  destruct (@malformed_frame_raises bridge_0002 decimal untyped (startup bridge_0002)
              (@no_type untyped (PDict [ ("source", PStr "h1") ]) eq_refl
                 (ex_intro _ (KeyError (PStr "type")) eq_refl)))
    as [H | (message & type & i & p & Hl & Ht & _)].
  - exact H.
  - exfalso. injection Hl as <-. discriminate Ht.
Defined.

(** ** The designated-port decision at bridge 0002 *)

Lemma before_root_loss_reachable : reachable bridge_0002 decimal before_root_loss.
Proof.
  assert (E : before_root_loss =
              snd (announce bridge_0002
                (snd (root_loss (snd (announce bridge_0002
                  (snd (root_loss (snd (announce bridge_0002 far_from_root))))))))))
    by (vm_compute; reflexivity).
  rewrite E. apply reach_announce. do 2 (apply reach_root_loss; apply reach_announce).
  apply reach_receive with (d := control "0003" "0001" 5 5001) (w := startup bridge_0002).
  - apply reach_startup.
  - vm_compute. reflexivity.
Qed.

(** The decision at the end of the interrupted handler of [torn]. *)
Lemma designated_port_test_witness :
  Port.is_enabled (Port.Build 0 5001 false 1 false) = true <->
  (BridgeInfo.root_port (bridgeInfo torn) = Z.of_nat 0 /\
   Port.min_cost (Port.Build 0 5001 false 1 false) = BridgeInfo.cost (bridgeInfo torn) - 1) \/
  Port.min_cost (Port.Build 0 5001 false 1 false) >= BridgeInfo.cost (bridgeInfo torn) + 1 \/
  (Port.min_cost (Port.Build 0 5001 false 1 false) = BridgeInfo.cost (bridgeInfo torn) /\
   py_ge (PStr "0005") (PStr (bridge_id bridge_0002)) = Ok true).
Proof.
  apply (@designated_port_test bridge_0002 decimal root_loss near_0005 0 false
           before_root_loss torn
           (PDict [ ("id", PStr "0005"); ("root", PStr "0002"); ("cost", PInt 1);
                    ("port", PInt 0) ])
           (PStr "0002") (PStr "0005") (Port.Build 0 5001 false 1 false)).
  - right. vm_compute. reflexivity.
  - vm_compute. reflexivity.
  - vm_compute. reflexivity.
  - vm_compute. reflexivity.
  - vm_compute. reflexivity.
  - vm_compute. reflexivity.
  - reflexivity.
Defined.

(** C3, a counterexample to the claim as stated.  Bridge 0002 holds root
    0001 at cost 6 through its first port, an enabled Port whose [min_cost]
    is 5, and has heard nothing from its next hop for three announcements.
    A bridge 0005 that takes 0002 for the root is heard on that port.  The
    handler finds the frame neither better nor confirming; the announcer
    wakes up, makes 0002 its own root and next hop and stops at [none]; the
    last [if] of the handler now finds the advertised root equal to the
    bridge's, lowers the [min_cost] of the Port to 1 and, 1 being neither 5
    nor above 6, disables it.  The Port is the root port, it is not
    permanently disabled, and it ends disabled.  Run with nothing in
    between, the same handler leaves the Port as it was. *)
Lemma root_port_ends_disabled :
  reachable bridge_0002 decimal before_root_loss /\
  nth_error (PORTS before_root_loss) 0 = Some (Port.Build 0 5001 true 5 false) /\
  advertised decimal near_0005 = Some (PStr "0002", 1) /\
  update_bpdu_interrupted bridge_0002 decimal root_loss near_0005 0 before_root_loss
    = (Ok false, torn) /\
  BridgeInfo.root_id (bridgeInfo torn) = PStr "0002" /\
  BridgeInfo.root_port (bridgeInfo torn) = 0 /\
  BridgeInfo.cost (bridgeInfo torn) = 6 /\
  nth_error (PORTS torn) 0 = Some (Port.Build 0 5001 false 1 false) /\
  Port.is_enabled (Port.Build 0 5001 false 1 false) = false /\
  stdout torn = stdout before_root_loss ++ [Disabled_port 0] /\
  update_bpdu bridge_0002 decimal near_0005 0 before_root_loss = (Ok false, before_root_loss).
Proof.
  split; [exact before_root_loss_reachable|].
  vm_compute. repeat split.
Qed.

(** ** Adoption at bridge 0002 *)



(** ** Forwarding and learning at bridge 0002 *)

Lemma data_frame_forwarding_witness :
  wire (snd (sending_data (Bytes "payload") (frame "h2" "h1") 1 learnt_h1)) =
  wire learnt_h1 ++ [ {| via := 0; to := 5001; sent := Bytes "payload" |} ].
Proof.
  apply (proj1 (proj2 (@data_frame_forwarding (Bytes "payload") (frame "h2" "h1") 1 learnt_h1
                         (snd (sending_data (Bytes "payload") (frame "h2" "h1") 1 learnt_h1))
                         (PStr "h1")
                         ltac:(vm_compute; reflexivity) ltac:(vm_compute; reflexivity)))
           0%nat (Port.Build 0 5001 true 0 false)).
  - vm_compute. reflexivity.
  - discriminate.
  - vm_compute. reflexivity.
  - vm_compute. reflexivity.
Defined.

Lemma learning_is_first_sight_witness :
  ADDR_TABLE first_sight = [ (PStr "h1", 0%nat) ] /\
  ADDR_TABLE (snd (sending_data (Bytes "again") (frame "h1" "h3") 1 first_sight)) =
  ADDR_TABLE first_sight.
Proof.
  destruct (@learning_is_first_sight (Bytes "payload") (frame "h1" "h2") 0 adopted_0001
              first_sight (PStr "h1")
              ltac:(vm_compute; reflexivity) ltac:(vm_compute; reflexivity))
    as [Hfirst Hagain].
  split.
  - rewrite Hfirst. vm_compute. reflexivity.
  - apply (Hagain (Bytes "again") (frame "h1" "h3") 1%nat).
    + vm_compute. reflexivity.
    + vm_compute. reflexivity.
Defined.

(** ** Attachments of bridge 0002 *)

Lemma duplicate_attachment_witness :
  exists p,
    nth_error (PORTS (startup bridge_0002)) 2 = Some p /\
    Port.permanently_disabled p = true /\
    get_port_from_lan_port bridge_0002 5001 = Ok 0%nat.
Proof.
  destruct (@duplicate_attachment_is_permanently_disabled bridge_0002 decimal 2 5001 eq_refl)
    as (first & p & p0 & Hfirst & _ & _ & _ & Hp & _ & _ & Hpd & _).
  exists p. split; [exact Hp|]. split.
  - apply Hpd. exists 0%nat. split; [lia | reflexivity].
  - vm_compute. reflexivity.
Defined.

(** ** [min_cost] at bridge 0002 *)



(** * Further properties of the program *)

Section Startup.

Variable args : Namespace.
Variable int_of_str : string -> option Z.

(** ** Datagrams from elsewhere *)

Lemma index_none x l : index x l = None <-> ~ In x l.
Proof.
  split.
  - intros H Hin. apply In_nth_error in Hin. destruct Hin as [i Hi].
    destruct (@index_nth_error _ _ _ Hi) as (k & Hk & _). congruence.
  - intros H. destruct (index x l) as [k|] eqn:E; [|reflexivity].
    exfalso. apply H. destruct (@index_spec _ _ _ E) as [Hk _].
    eapply nth_error_In; eauto.
Qed.

(** X1.  A datagram that comes from a UDP port which is not one of the
    bridge's LANs ends the turn of the event loop in an exception, whatever
    its payload, and leaves the bridge as it was: the exception of
    [json.loads] when the payload does not decode, and the [ValueError] of
    [list.index] when it does. *)
Theorem datagram_from_unknown_lan d w :
  ~ In (from d) (lan_ports args) ->
  receive args int_of_str d w =
  (Raise (match loads d with
          | Some _ => ValueError
          | None => loads_raises d
          end), w).
Proof.
  intros H. apply index_none in H. unfold receive, get_port_from_lan_port.
  cbv beta iota zeta delta [bind lift]. rewrite H. now destruct (loads d).
Qed.

(** ** The start of [main] *)

Lemma attached_before_index l lan k : forall i,
  index lan l = Some k ->
  existsb (Z.eqb lan) (firstn i l) = Nat.ltb k i.
Proof.
  revert k; induction l as [|y l IH]; intros k i; simpl; [discriminate|].
  destruct (Z.eqb_spec y lan) as [->|Hne].
  - intros H; injection H as <-. destruct i; simpl; [reflexivity|].
    now rewrite Z.eqb_refl.
  - destruct (index lan l) as [k'|] eqn:E; simpl; [|discriminate].
    intros H; injection H as <-. destruct i; simpl; [reflexivity|].
    destruct (Z.eqb_spec lan y) as [->|_]; [contradiction|]. simpl.
    now rewrite (IH k' i eq_refl).
Qed.

(** The Port [main] builds for the attachment at place [fst il]. *)
Lemma append_ports_trace (l : list (nat * Z)) w :
  (forall il, In il l -> In (snd il) (lan_ports args)) ->
  for_each l (append_port args) w =
  (Ok tt,
   {| bridgeInfo := bridgeInfo w;
      PORTS := PORTS w ++ map (built args) l;
      ADDR_TABLE := ADDR_TABLE w;
      thread_ADDR_TABLE := thread_ADDR_TABLE w;
      stdout := stdout w ++
                map (fun il => if attached_before args (fst il) (snd il)
                               then Disabled_port (fst il)
                               else Designated_port (fst il)) l;
      wire := wire w |}).
Proof.
  revert w; induction l as [|il l IH]; intros w Hin; simpl.
  - destruct w; cbn. now rewrite !app_nil_r.
  - unfold bind. unfold append_port at 1, get_port_from_lan_port.
    cbv beta iota zeta delta [bind ret raise lift gets modify print].
    assert (Hil : In (snd il) (lan_ports args)) by (apply Hin; now left).
    apply In_nth_error in Hil. destruct Hil as [i Hi].
    destruct (@index_nth_error _ _ _ Hi) as (k & Hk & _). rewrite Hk, writable_init.
    assert (Hb : attached_before args (fst il) (snd il) = Nat.ltb k (fst il))
      by (apply attached_before_index; exact Hk).
    rewrite IH by (intros il' H'; apply Hin; now right).
    world. cbn [map].
    assert (Hp : built args il = snd (Port.init (fst il) (snd il) (Nat.ltb k (fst il))))
      by (unfold built; rewrite Hb; reflexivity).
    rewrite Hp, Hb, <- !app_assoc.
    destruct (Nat.ltb k (fst il)); reflexivity.
Qed.

(** X2.  What [main] has done when the event loop and the announcer start:
    it has printed "Bridge starting up", one line per attachment
    ("Disabled port" when its LAN stands at an earlier place, "Designated
    port" otherwise), the bridge itself as root at cost 0 and "Root port:
    none"; it has built one Port per attachment, with [min_cost] 0, enabled
    unless its LAN stands at an earlier place; the table is empty and
    nothing has been sent.  When the bridge's own id cannot be written to
    [stdout], [main] stops at the "New root" line with [UnicodeEncodeError]
    instead, with the Ports built and the two last lines not printed. *)
Theorem startup_transcript :
  fst (setup args (blank args)) =
    (if encodable (bridge_id args) then Ok tt else Raise UnicodeEncodeError) /\
  startup args =
  {| bridgeInfo := BridgeInfo.init (bridge_id args);
     PORTS := map (built args) (enumerate (lan_ports args));
     ADDR_TABLE := [];
     thread_ADDR_TABLE := None;
     stdout := Bridge_starting_up ::
               map (fun il => if attached_before args (fst il) (snd il)
                              then Disabled_port (fst il)
                              else Designated_port (fst il)) (enumerate (lan_ports args))
               ++ (if encodable (bridge_id args)
                   then [ New_root (PStr (bridge_id args)) 0; Root_port_none ]
                   else []);
     wire := [] |}.
Proof.
  unfold startup, setup.
  cbv beta iota zeta delta [bind ret raise lift gets ask modify print writable].
  rewrite append_ports_trace by (intros il; apply in_enumerate_in).
  unfold with_stdout. cbn.
  destruct (encodable (bridge_id args)); cbn; split; try reflexivity.
  - now rewrite <- app_assoc.
  - now rewrite app_nil_r.
Qed.

End Startup.

Section Announcements.

Variable args : Namespace.
Variable int_of_str : string -> option Z.

(** ** Announcements *)







End Announcements.

Section Announcer.

Variable args : Namespace.
Variable int_of_str : string -> option Z.

(** ** The life of the announcer thread *)






End Announcer.

Section Steps.

Variable args : Namespace.
Variable int_of_str : string -> option Z.

(** ** Control frames, step by step *)

(** The course of [update_bpdu] when it returns, with the branch that the
    test of the [elif] takes. *)
Lemma update_bpdu_steps message i u w w' :
  update_bpdu args int_of_str message i w = (Ok u, w') ->
  exists body r craw c s b w1,
    py_getitem message "message" = Ok body /\
    py_getitem body "root" = Ok r /\
    py_getitem body "cost" = Ok craw /\
    py_int int_of_str craw = Ok c /\
    py_getitem message "source" = Ok s /\
    better r c s (BridgeInfo.root_id (bridgeInfo w)) (BridgeInfo.cost (bridgeInfo w))
      (BridgeInfo.next_hop (bridgeInfo w)) = Ok b /\
    (if b
     then adopt args message r c s (BridgeInfo.root_id (bridgeInfo w)) i w = (Ok u, w1)
     else u = false /\
          w1 = if reconfirms r c s (BridgeInfo.root_id (bridgeInfo w))
                    (BridgeInfo.cost (bridgeInfo w)) (BridgeInfo.next_hop (bridgeInfo w))
                    (BridgeInfo.bridge_id (bridgeInfo w))
               then with_bridgeInfo BridgeInfo.reset_unconfirmed w
               else w) /\
    designate args r c s i w1 = (Ok tt, w').
Proof.
  unfold update_bpdu. intros H. unfold_monad H.
  destruct (py_getitem message "message") as [body|] eqn:Ebody; [|discriminate].
  destruct (py_getitem body "root") as [r|] eqn:Er; [|discriminate].
  destruct (py_getitem body "cost") as [craw|] eqn:Ecraw; [|discriminate].
  destruct (py_int int_of_str craw) as [c|] eqn:Ec; [|discriminate].
  destruct (py_getitem message "source") as [s|] eqn:Es; [|discriminate].
  destruct (better r c s _ _ _) as [b|] eqn:Eb; [|discriminate].
  exists body, r, craw, c, s, b.
  destruct b.
  - destruct (adopt args message r c s (BridgeInfo.root_id (bridgeInfo w)) i w)
      as [[u1|] w1] eqn:Ea; [|discriminate].
    destruct (designate args r c s i w1) as [[[]|] w2] eqn:Ed; [|discriminate].
    inversion H; subst. exists w1. auto 10.
  - destruct (reconfirms _ _ _ _ _ _ _).
    + destruct (designate args r c s i _) as [[[]|] w2] eqn:Ed; [|discriminate].
      inversion H; subst.
      exists (with_bridgeInfo BridgeInfo.reset_unconfirmed w). auto 10.
    + destruct (designate args r c s i _) as [[[]|] w2] eqn:Ed; [|discriminate].
      inversion H; subst. exists w. auto 10.
Qed.

(** What [adopt] prints. *)
Lemma adopt_stdout message body craw r c s root0 i u w w1 :
  py_getitem message "message" = Ok body ->
  py_getitem body "cost" = Ok craw ->
  py_int int_of_str craw = Ok c ->
  adopt args message r c s root0 i w = (Ok u, w1) ->
  exists lower,
    py_lt r root0 = Ok lower /\
    stdout w1 = stdout w ++ (if lower then [New_root r (c + 1)] else []) ++ [Root_port i].
Proof.
  intros Hbody Hcraw Hc. unfold adopt, send_bpdus. intros H. unfold_monad H.
  destruct (py_lt r root0) as [lower|] eqn:E; [|discriminate].
  exists lower. split; [reflexivity|]. rewrite Hbody, Hcraw in H.
  destruct lower.
  - destruct (py_add1 craw) as [n|] eqn:En; [|discriminate].
    assert (n = c + 1).
    { unfold py_add1 in En. destruct craw; cbn in *; try discriminate; congruence. }
    subst n. exec H. inversion H; subst; cbn. now rewrite <- app_assoc.
  - inversion H; subst; cbn. reflexivity.
Qed.

(** What the last [if] of [update_bpdu] prints: a line when the ingress
    Port starts or stops forwarding, and only then. *)
Lemma designate_stdout r c s i w w' :
  designate args r c s i w = (Ok tt, w') ->
  stdout w' = stdout w ++ transition (nth_error (PORTS w) i) (nth_error (PORTS w') i).
Proof.
  unfold designate, set_enabled_at. intros H. unfold_monad H. cbn in H.
  destruct (py_eq r (BridgeInfo.root_id (bridgeInfo w))) eqn:Eroot.
  2:{ inversion H; subst. unfold transition.
      destruct (nth_error (PORTS w') i) as [p|]; [|now rewrite app_nil_r].
      destruct (Port.is_enabled p); now rewrite app_nil_r. }
  destruct (nth_error (PORTS w) i) as [p|] eqn:Ep; [|discriminate].
  cbn in H. rewrite (nth_error_replace_nth_eq _ _ _ Ep) in H. cbn in H.
  destruct (designated args (Port.update_min_cost c p) (BridgeInfo.cost (bridgeInfo w))
              (BridgeInfo.root_port (bridgeInfo w)) s i) as [keep|] eqn:Ek; [|discriminate].
  destruct (update_min_cost_spec c p) as (_ & Hatt & Hen).
  injection Hatt as Hid Hlan Hpd.
  assert (Hie : Port.is_enabled (Port.update_min_cost c p) = Port.is_enabled p)
    by (unfold Port.is_enabled; now rewrite Hen, Hpd).
  assert (Hkeep : keep = true -> Port.permanently_disabled p = false).
  { intros ->. unfold designated, Port.is_permanently_disabled in Ek.
    rewrite Hpd in Ek. destruct (Port.permanently_disabled p); [discriminate | reflexivity]. }
  cbn in H.
  destruct keep; cbn in H;
    destruct (Port.is_enabled (Port.update_min_cost c p)) eqn:Een; cbn in H;
    repeat (rewrite (nth_error_replace_nth_eq _ _ _ Ep) in H; cbn in H);
    inversion H; subst; cbn; try rewrite replace_nth_twice;
    rewrite (nth_error_replace_nth_eq _ _ _ Ep); unfold transition; rewrite <- Hie.
  - now rewrite Een, app_nil_r.
  - unfold Port.is_enabled at 1. cbn. rewrite Hpd, (Hkeep eq_refl). reflexivity.
  - unfold Port.is_enabled at 1. cbn. reflexivity.
  - now rewrite Een, app_nil_r.
Qed.

End Steps.

Section Control_frames.

Variable args : Namespace.
Variable int_of_str : string -> option Z.

Lemma advertised_fields message body r craw c :
  py_getitem message "message" = Ok body ->
  py_getitem body "root" = Ok r ->
  py_getitem body "cost" = Ok craw ->
  py_int int_of_str craw = Ok c ->
  advertised int_of_str message = Some (r, c).
Proof.
  intros Hbody Hr Hcraw Hc. unfold advertised. now rewrite Hbody, Hr, Hcraw, Hc.
Qed.

(** X5.  The counter of unconfirmed turns under a control frame that
    [update_bpdu] handles to the end.  The call returns the outcome of the
    election test.  A frame that is adopted leaves the counter as it was; a
    frame that is not adopted sets it to 0 when it names the current root at
    the current cost through the current next hop, or when the bridge holds
    itself to be the root, and leaves it as it was otherwise. *)
Theorem unconfirmed_after_control_frame message i u w w' :
  update_bpdu args int_of_str message i w = (Ok u, w') ->
  exists r c s,
    advertised int_of_str message = Some (r, c) /\
    py_getitem message "source" = Ok s /\
    better r c s (BridgeInfo.root_id (bridgeInfo w)) (BridgeInfo.cost (bridgeInfo w))
      (BridgeInfo.next_hop (bridgeInfo w)) = Ok u /\
    BridgeInfo.unconfirmed (bridgeInfo w') =
      if u then BridgeInfo.unconfirmed (bridgeInfo w)
      else if (py_eq r (BridgeInfo.root_id (bridgeInfo w))
               && (c + 1 =? BridgeInfo.cost (bridgeInfo w))
               && py_eq s (BridgeInfo.next_hop (bridgeInfo w)))
              || py_eq (BridgeInfo.root_id (bridgeInfo w))
                       (PStr (BridgeInfo.bridge_id (bridgeInfo w)))
           then 0
           else BridgeInfo.unconfirmed (bridgeInfo w).
Proof.
  intros H. apply update_bpdu_steps in H.
  destruct H as (body & r & craw & c & s & b & w1 & Hbody & Hr & Hcraw & Hc & Hs & Hb & Hstep & Hd).
  exists r, c, s. split; [eapply advertised_fields; eauto|]. split; [exact Hs|].
  apply designate_ok in Hd. destruct Hd as (Hbi & _). rewrite Hbi.
  destruct b.
  - apply adopt_ok in Hstep. destruct Hstep as (lower & _ & -> & Hbi1 & _).
    split; [exact Hb|]. now rewrite Hbi1.
  - destruct Hstep as [-> ->]. split; [exact Hb|]. unfold reconfirms.
    now destruct (_ || _).
Qed.

(** X6.  A control frame that [update_bpdu] handles to the end, in a state
    the bridge can reach, leaves every Port other than the ingress Port with
    its id, its LAN, its flags and so its forwarding state, even when the
    frame is adopted; of such a Port only [min_cost] moves, to 999999, and
    only on adoption.  The number of Ports stays. *)
Theorem control_frame_spares_other_ports message i u w w' :
  reachable args int_of_str w ->
  update_bpdu args int_of_str message i w = (Ok u, w') ->
  List.length (PORTS w') = List.length (PORTS w) /\
  forall j p,
    j <> i ->
    nth_error (PORTS w) j = Some p ->
    exists p',
      nth_error (PORTS w') j = Some p' /\
      attachment p' = attachment p /\
      Port.enabled p' = Port.enabled p /\
      Port.is_enabled p' = Port.is_enabled p /\
      Port.min_cost p' = if u then 999999 else Port.min_cost p.
Proof.
  intros Hreach H.
  destruct (reachable_invariant Hreach) as (Hsame & Hrpm & _).
  pose proof (same_attachments_indexed Hsame) as Hidx.
  destruct (@update_bpdu_invariant args int_of_str _ _ _ _ _ Hsame Hrpm H) as (Hsame' & _ & _).
  split.
  { unfold same_attachments in *. rewrite <- Hsame in Hsame'.
    apply (f_equal (@List.length _)) in Hsame'. now rewrite !length_map in Hsame'. }
  intros j p Hne Hp.
  apply update_bpdu_steps in H.
  destruct H as (body & r & craw & c & s & b & w1 & _ & _ & _ & _ & _ & _ & Hstep & Hd).
  assert (H1 : exists p1, nth_error (PORTS w1) j = Some p1 /\
                          attachment p1 = attachment p /\
                          Port.enabled p1 = Port.enabled p /\
                          Port.min_cost p1 = if u then 999999 else Port.min_cost p).
  { destruct b.
    - apply adopt_ok in Hstep. destruct Hstep as (lower & _ & -> & _ & Hp1 & _).
      destruct (nth_error (PORTS w1) j) as [p1|] eqn:E1.
      2:{ rewrite Hp1, nth_error_map, Hp in E1. discriminate. }
      rewrite Hp1 in E1. apply nth_error_reset in E1.
      destruct E1 as (q & Hq & Ha & He & Hm). rewrite Hp in Hq. injection Hq as <-.
      exists p1. rewrite (Hidx _ _ Hp) in Hm.
      apply Nat.eqb_neq in Hne. rewrite Hne in Hm. auto.
    - destruct Hstep as [-> ->]. exists p. destruct (reconfirms _ _ _ _ _ _ _); auto. }
  destruct H1 as (p1 & Hp1 & Ha1 & He1 & Hm1).
  apply designate_ok in Hd. destruct Hd as (_ & _ & _ & _ & Hports).
  assert (Hj : nth_error (PORTS w') j = Some p1).
  { destruct Hports as [[_ ->] | [_ (p0 & p' & keep & _ & _ & -> & _)]]; [exact Hp1|].
    rewrite nth_error_replace_nth_neq by congruence. exact Hp1. }
  exists p1. repeat split; auto.
  unfold Port.is_enabled. injection Ha1 as _ _ Hpd. now rewrite He1, Hpd.
Qed.

(** X7.  A control frame is never forwarded and teaches the table nothing.
    When the turn of the event loop for a datagram of type "bpdu" returns,
    what went out are BPDUs of the bridge itself; nothing went out at all
    unless the frame was adopted; and the table is the one before, or, on
    adoption, an empty one. *)
Theorem control_frames_are_not_forwarded d w w' message type :
  receive args int_of_str d w = (Ok tt, w') ->
  loads d = Some message ->
  py_getitem message "type" = Ok type ->
  py_eq type (PStr "bpdu") = true ->
  exists r c s u news,
    advertised int_of_str message = Some (r, c) /\
    py_getitem message "source" = Ok s /\
    better r c s (BridgeInfo.root_id (bridgeInfo w)) (BridgeInfo.cost (bridgeInfo w))
      (BridgeInfo.next_hop (bridgeInfo w)) = Ok u /\
    wire w' = wire w ++ news /\
    (forall x, In x news ->
       sent x = Dumps (Port.bpdu (bridge_id args) (BridgeInfo.root_id (bridgeInfo w'))
                         (BridgeInfo.cost (bridgeInfo w')) (via x))) /\
    (if u then ADDR_TABLE w' = []
     else news = [] /\ ADDR_TABLE w' = ADDR_TABLE w).
Proof.
  intros H Hl Ht Hb. apply receive_ok in H.
  destruct H as (message' & i & type' & Hl' & _ & Ht' & H).
  rewrite Hl in Hl'. injection Hl' as <-. rewrite Ht in Ht'. injection Ht' as <-.
  rewrite Hb in H. destruct H as (u & w1 & H & ->).
  apply update_bpdu_steps in H.
  destruct H as (body & r & craw & c & s & b & w2 & Hbody & Hr & Hcraw & Hc & Hs & Hbetter
                 & Hstep & Hd).
  apply designate_ok in Hd. destruct Hd as (Hbi & Htab & _ & Hwire & _).
  destruct b.
  - apply adopt_ok in Hstep.
    destruct Hstep as (lower & _ & -> & Hbi2 & _ & _ & _ & Hwire2).
    exists r, c, s, true,
      (flat_map (Port.send_bpdu (bridge_id args)
                   (if lower then r else BridgeInfo.root_id (bridgeInfo w)) (c + 1)) (PORTS w2)).
    split; [eapply advertised_fields; eauto|]. split; [exact Hs|]. split; [exact Hbetter|].
    cbn. rewrite Hwire, Hwire2, Hbi, Hbi2. cbn. split; [reflexivity|]. split; [|reflexivity].
    intros x Hx. apply in_flat_map in Hx. destruct Hx as (q & _ & Hx).
    unfold Port.send_bpdu, Port.send in Hx.
    destruct (negb (Port.permanently_disabled q)); cbn in Hx; [|contradiction].
    destruct Hx as [<-|[]]. reflexivity.
  - destruct Hstep as [-> ->].
    exists r, c, s, false, []. 
    split; [eapply advertised_fields; eauto|]. split; [exact Hs|]. split; [exact Hbetter|].
    rewrite Hwire, Htab, app_nil_r.
    destruct (reconfirms _ _ _ _ _ _ _); cbn;
      (split; [reflexivity|]); (split; [intros x []|]); auto.
Qed.

(** X8.  What [update_bpdu] prints for a control frame that it handles to
    the end: on adoption "New root" with the adopted root and cost, when the
    advertised root is lower than the current one, then "Root port" with the
    ingress port; and after that one line, "Designated port" or "Disabled
    port", exactly when the ingress Port has started or stopped
    forwarding. *)
Theorem control_frame_transcript message i u w w' :
  update_bpdu args int_of_str message i w = (Ok u, w') ->
  exists r c lower,
    advertised int_of_str message = Some (r, c) /\
    py_lt r (BridgeInfo.root_id (bridgeInfo w)) = Ok lower /\
    stdout w' =
      stdout w
      ++ (if u then (if lower then [New_root r (c + 1)] else []) ++ [Root_port i] else [])
      ++ transition (nth_error (PORTS w) i) (nth_error (PORTS w') i).
Proof.
  intros H. apply update_bpdu_steps in H.
  destruct H as (body & r & craw & c & s & b & w1 & Hbody & Hr & Hcraw & Hc & Hs & Hb & Hstep & Hd).
  exists r, c.
  assert (Hlt : exists lower, py_lt r (BridgeInfo.root_id (bridgeInfo w)) = Ok lower).
  { unfold better, rbind in Hb. destruct (py_lt r _) as [lower|]; [eauto|discriminate]. }
  destruct Hlt as [lower Hlt]. exists lower.
  split; [eapply advertised_fields; eauto|]. split; [exact Hlt|].
  pose proof Hd as Hline. apply designate_stdout in Hline. rewrite Hline.
  destruct b.
  - destruct (@adopt_stdout args int_of_str _ _ _ _ _ _ _ _ _ _ _ Hbody Hcraw Hc Hstep)
      as (lower' & Hlt' & Hout).
    rewrite Hlt in Hlt'. injection Hlt' as <-.
    apply adopt_ok in Hstep. destruct Hstep as (_ & _ & -> & _ & Hp1 & _).
    rewrite Hout, <- !app_assoc. do 3 f_equal.
    rewrite Hp1, nth_error_map. destruct (nth_error (PORTS w) i) as [p|]; [|reflexivity].
    cbn [option_map transition]. destruct (nth_error (PORTS w') i) as [p'|]; [|reflexivity].
    now destruct (negb _).
  - destruct Hstep as [-> ->]. cbn [app].
    destruct (reconfirms _ _ _ _ _ _ _); reflexivity.
Qed.

(** X9.  A control frame that names a lower root and gives its cost as a
    string of digits: [int] reads the cost, the root is taken over, and then
    the "New root" line adds 1 to the string and raises [TypeError].  The
    bridge is left with the new root and with its old cost, next hop and
    root port; nothing is printed and nothing is sent. *)
Theorem lower_root_with_text_cost message body r digits c s i w :
  py_getitem message "message" = Ok body ->
  py_getitem body "root" = Ok r ->
  py_getitem body "cost" = Ok (PStr digits) ->
  int_of_str digits = Some c ->
  py_getitem message "source" = Ok s ->
  py_lt r (BridgeInfo.root_id (bridgeInfo w)) = Ok true ->
  update_bpdu args int_of_str message i w =
  (Raise TypeError, with_bridgeInfo (BridgeInfo.set_root_id r) w).
Proof.
  intros Hbody Hr Hcraw Hc Hs Hlt. unfold update_bpdu, adopt, better, rbind.
  cbv beta iota zeta delta
    [bind ret raise lift gets ask tell modify
     BridgeInfo.get_root_id BridgeInfo.get_cost BridgeInfo.get_next_hop].
  rewrite Hbody, Hr, Hcraw. cbn [py_int]. rewrite Hc, Hs, Hlt. reflexivity.
Qed.

End Control_frames.

Section Data_frames.

Variable args : Namespace.
Variable int_of_str : string -> option Z.

(** ** Data frames *)

(** A Port that may send is the one [get_port_from_lan_port] gives for its
    LAN. *)
Lemma sending_port_is_first w j q :
  same_attachments args w ->
  nth_error (PORTS w) j = Some q ->
  Port.permanently_disabled q = false ->
  Port.id q = j /\ index (Port.lan_port q) (lan_ports args) = Some j.
Proof.
  intros Hsame Hq Hpd.
  assert (Ha : nth_error (map attachment (PORTS w)) j = Some (attachment q))
    by (rewrite nth_error_map, Hq; reflexivity).
  rewrite Hsame, nth_error_map in Ha.
  destruct (nth_error (PORTS (startup args)) j) as [q0|] eqn:E0; [|discriminate].
  apply startup_port in E0. destruct E0 as (lan & k & Hlan & Hk & ->).
  change (option_map attachment (Some (snd (Port.init j lan (Nat.ltb k j)))))
    with (Some (j, lan, Nat.ltb k j)) in Ha.
  injection Ha as Hid Hl Hp. rewrite Hpd in Hp.
  split; [now symmetry|]. rewrite <- Hl, Hk. f_equal.
  destruct (@index_spec _ _ _ Hk) as [_ Hmin].
  apply Nat.ltb_ge in Hp.
  destruct (Nat.eq_dec k j) as [|Hne]; [assumption|].
  exfalso. apply (Hmin j); [lia | exact Hlan].
Qed.

(** What an enabled Port other than the ingress Port sends does not go to
    the LAN the frame came from. *)
Lemma relay_goes_elsewhere w lan i j q data x :
  same_attachments args w ->
  index lan (lan_ports args) = Some i ->
  nth_error (PORTS w) j = Some q ->
  j <> i ->
  Port.is_enabled q = true ->
  In x (Port.send data q) ->
  sent x = data /\ to x <> lan /\
  get_port_from_lan_port args (to x) = Ok (via x) /\
  exists q', nth_error (PORTS w) (via x) = Some q' /\ Port.is_enabled q' = true.
Proof.
  intros Hsame Hi Hq Hne Hen Hx.
  assert (Hpd : Port.permanently_disabled q = false).
  { unfold Port.is_enabled in Hen. apply andb_prop in Hen.
    now destruct (Port.permanently_disabled q), Hen. }
  destruct (sending_port_is_first _ Hsame Hq Hpd) as [Hid Hfirst].
  unfold Port.send in Hx. rewrite Hpd in Hx. cbn in Hx. destruct Hx as [<-|[]]. cbn.
  split; [reflexivity|]. split; [|split].
  - intros Hlan. rewrite Hlan in Hfirst. congruence.
  - unfold get_port_from_lan_port. now rewrite Hfirst, Hid.
  - exists q. rewrite Hid. auto.
Qed.

(** X10.  A data frame is never sent back to the LAN it came from.  When the
    turn of the event loop for a datagram that is not a control frame
    returns, in a state the bridge can reach, everything that went out is
    that datagram, byte for byte, sent to a LAN other than the one it came
    from, on the Port the bridge receives that LAN on, which is enabled. *)
Theorem data_frames_are_not_reflected d w w' message type :
  reachable args int_of_str w ->
  receive args int_of_str d w = (Ok tt, w') ->
  loads d = Some message ->
  py_getitem message "type" = Ok type ->
  py_eq type (PStr "bpdu") = false ->
  exists news,
    wire w' = wire w ++ news /\
    forall x, In x news ->
      sent x = Bytes (data d) /\
      to x <> from d /\
      get_port_from_lan_port args (to x) = Ok (via x) /\
      exists q, nth_error (PORTS w) (via x) = Some q /\ Port.is_enabled q = true.
Proof.
  intros Hreach H Hl Ht Hb.
  destruct (reachable_invariant Hreach) as (Hsame & _ & _).
  apply receive_ok in H.
  destruct H as (message' & i & type' & Hl' & Hi & Ht' & H).
  rewrite Hl in Hl'. injection Hl' as <-. rewrite Ht in Ht'. injection Ht' as <-.
  rewrite Hb in H. destruct H as (p & Hp & H).
  unfold get_port_from_lan_port in Hi.
  destruct (index (from d) (lan_ports args)) as [i'|] eqn:Ei; [|discriminate].
  injection Hi as ->.
  destruct (Port.is_enabled p).
  2:{ subst w'. exists []. split; [now rewrite app_nil_r | intros x []]. }
  destruct H as (source & n & dest & H). apply sending_data_ok in H.
  destruct H as (_ & dest' & _ & _ & _ & _ & _ & _ & _ & _ & Hwire).
  cbn [PORTS wire with_stdout] in Hwire.
  destruct (table_get dest' (ADDR_TABLE w')) as [j|].
  - destruct (Nat.eqb_spec j i) as [Heq|Hne].
    + exists []. split; [now rewrite app_nil_r | intros x []].
    + destruct Hwire as (q & Hq & ->). eexists. split; [reflexivity|].
      intros x Hx. destruct (Port.is_enabled q) eqn:Een; [|destruct Hx].
      eapply relay_goes_elsewhere; eauto.
  - eexists. split; [exact Hwire|].
    intros x Hx. apply in_flat_map in Hx. destruct Hx as ([j q] & Hin & Hx).
    apply in_enumerate in Hin. cbn [fst snd] in Hx.
    destruct (Nat.eqb_spec j i) as [Heq|Hne]; cbn [negb andb] in Hx; [destruct Hx|].
    destruct (Port.is_enabled q) eqn:Een; [|destruct Hx].
    eapply relay_goes_elsewhere; eauto.
Qed.

Lemma table_get_app k t t' :
  table_get k (t ++ t') =
  match table_get k t with
  | Some p => Some p
  | None => table_get k t'
  end.
Proof.
  induction t as [|[k' p'] t IH]; cbn; [reflexivity|]. now destruct (py_eq k k').
Qed.

(** Learning a new source moves no entry that is there. *)
Lemma table_get_learnt k p t k' p' :
  table_get k t = Some p ->
  table_get k' t = None ->
  table_get k (table_put k' p' t) = Some p.
Proof.
  intros Hk Hk'. rewrite (@table_put_absent k' p' t Hk'), table_get_app. now rewrite Hk.
Qed.

(** X11.  Learning and forwarding compose.  Once a first data frame from a
    host has been handled on port [i], a later data frame for that host that
    arrives on port [j] goes out on port [i] and nowhere else, provided [j]
    is another port and the Port at [i] is enabled; it goes nowhere
    otherwise. *)
Theorem reply_follows_learnt_port data1 message1 i w w1 data2 message2 j w2 host p :
  sending_data data1 message1 i w = (Ok tt, w1) ->
  py_getitem message1 "source" = Ok host ->
  table_get host (ADDR_TABLE w) = None ->
  sending_data data2 message2 j w1 = (Ok tt, w2) ->
  py_getitem message2 "dest" = Ok host ->
  nth_error (PORTS w) i = Some p ->
  table_get host (ADDR_TABLE w2) = Some i /\
  wire w2 =
    wire w1 ++
    (if negb (Nat.eqb j i) && Port.is_enabled p
     then [ {| via := Port.id p; to := Port.lan_port p; sent := data2 |} ]
     else []).
Proof.
  intros H1 Hsrc Hnew H2 Hdst Hp.
  apply sending_data_ok in H1.
  destruct H1 as (source1 & _ & Hs1 & _ & _ & _ & Ht1 & _ & Hp1 & _).
  rewrite Hsrc in Hs1. injection Hs1 as <-. rewrite Hnew in Ht1.
  apply sending_data_ok in H2.
  destruct H2 as (source2 & dest2 & _ & Hd2 & _ & _ & Ht2 & _ & _ & _ & Hwire).
  rewrite Hdst in Hd2. injection Hd2 as <-.
  assert (Hget1 : table_get host (ADDR_TABLE w1) = Some i)
    by (rewrite Ht1; apply table_get_put).
  assert (Hget2 : table_get host (ADDR_TABLE w2) = Some i).
  { rewrite Ht2. destruct (table_get source2 (ADDR_TABLE w1)) eqn:E; [exact Hget1|].
    now apply table_get_learnt. }
  split; [exact Hget2|]. rewrite Hget2 in Hwire. rewrite Nat.eqb_sym in Hwire.
  destruct (Nat.eqb j i); cbn [negb andb]; [now rewrite Hwire, app_nil_r|].
  destruct Hwire as (q & Hq & ->). rewrite Hp1, Hp in Hq. injection Hq as <-.
  destruct (Port.is_enabled p) eqn:Een; [|reflexivity].
  unfold Port.send. unfold Port.is_enabled in Een. apply andb_prop in Een.
  destruct Een as [_ ->]. reflexivity.
Qed.

(** X12.  A data frame handled with an empty table, as after an election
    update: its source is learnt on the ingress port, and the frame is
    flooded on every enabled Port other than the ingress Port, unless it is
    addressed to its own source, in which case it goes nowhere. *)
Theorem first_frame_is_flooded data message i w w' source dest :
  ADDR_TABLE w = [] ->
  sending_data data message i w = (Ok tt, w') ->
  py_getitem message "source" = Ok source ->
  py_getitem message "dest" = Ok dest ->
  ADDR_TABLE w' = [ (source, i) ] /\
  wire w' =
    wire w ++
    (if py_eq dest source then []
     else map (fun ip => {| via := Port.id (snd ip); to := Port.lan_port (snd ip);
                            sent := data |})
              (filter (fun ip => negb (Nat.eqb (fst ip) i) && Port.is_enabled (snd ip))
                      (enumerate (PORTS w)))).
Proof.
  intros Hempty H Hsrc Hdst. apply sending_data_ok in H.
  destruct H as (source' & dest' & Hs & Hd & _ & _ & Ht & _ & _ & _ & Hwire).
  rewrite Hsrc in Hs. injection Hs as <-. rewrite Hdst in Hd. injection Hd as <-.
  rewrite Hempty in Ht. cbn in Ht. split; [exact Ht|].
  rewrite Ht in Hwire. cbn in Hwire.
  destruct (py_eq dest source).
  - rewrite Nat.eqb_refl in Hwire. now rewrite Hwire, app_nil_r.
  - rewrite Hwire. f_equal. apply flat_map_send.
    intros ip _ Hk. apply andb_prop in Hk. tauto.
Qed.

End Data_frames.

(** ** The order of identifiers *)

Lemma ascii_compare_lt_trans a b c :
  Ascii.compare a b = Lt -> Ascii.compare b c = Lt -> Ascii.compare a c = Lt.
Proof.
  unfold Ascii.compare. rewrite !N.compare_lt_iff. apply N.lt_trans.
Qed.

Lemma string_compare_lt_trans s : forall t u,
  String.compare s t = Lt -> String.compare t u = Lt -> String.compare s u = Lt.
Proof.
  induction s as [|a s IH]; intros [|b t] [|c u]; cbn; try discriminate; auto.
  destruct (Ascii.compare a b) eqn:Eab; try discriminate;
    destruct (Ascii.compare b c) eqn:Ebc; try discriminate; intros H1 H2.
  - apply Ascii.compare_eq_iff in Eab, Ebc. subst.
    assert (E : Ascii.compare c c = Eq).
    { unfold Ascii.compare. apply N.compare_refl. }
    rewrite E. eauto.
  - apply Ascii.compare_eq_iff in Eab. subst. now rewrite Ebc.
  - apply Ascii.compare_eq_iff in Ebc. subst. now rewrite Eab.
  - now rewrite (ascii_compare_lt_trans _ _ _ Eab Ebc).
Qed.

(** Below an identifier that is not above [u] is below [u]. *)
Lemma string_ltb_leb s t u :
  String.ltb s t = true -> String.leb t u = true -> String.ltb s u = true.
Proof.
  unfold String.ltb, String.leb.
  destruct (String.compare s t) eqn:Est; try discriminate.
  destruct (String.compare t u) eqn:Etu; try discriminate; intros _ _.
  - apply String.compare_eq_iff in Etu. subst. now rewrite Est.
  - now rewrite (string_compare_lt_trans _ _ _ Est Etu).
Qed.

Lemma string_ltb_is_leb s t : String.ltb s t = true -> String.leb s t = true.
Proof.
  unfold String.ltb, String.leb. now destruct (String.compare s t).
Qed.

Lemma string_leb_refl s : String.leb s s = true.
Proof.
  destruct (String.leb_total s s); assumption.
Qed.

(** Only a string is below a string. *)
Lemma py_lt_string r t :
  py_lt r (PStr t) = Ok true -> exists s, r = PStr s /\ String.ltb s t = true.
Proof.
  destruct r; cbn; try discriminate. intros H; injection H as H. eauto.
Qed.

Section Root.

Variable args : Namespace.
Variable int_of_str : string -> option Z.

(** ** The root the bridge believes in *)

(** A control frame leaves the root, or lowers it. *)
Lemma update_bpdu_root message i u w w' t :
  update_bpdu args int_of_str message i w = (Ok u, w') ->
  BridgeInfo.root_id (bridgeInfo w) = PStr t ->
  BridgeInfo.root_id (bridgeInfo w') = PStr t \/
  exists s, BridgeInfo.root_id (bridgeInfo w') = PStr s /\ String.ltb s t = true.
Proof.
  intros H Hroot. apply update_bpdu_steps in H.
  destruct H as (body & r & craw & c & s & b & w1 & _ & _ & _ & _ & _ & _ & Hstep & Hd).
  apply designate_ok in Hd. destruct Hd as (-> & _).
  destruct b.
  - apply adopt_ok in Hstep. destruct Hstep as (lower & Hlt & _ & -> & _). cbn.
    destruct lower; [|now left]. right. rewrite Hroot in Hlt. now apply py_lt_string.
  - destruct Hstep as [_ ->]. left. now destruct (reconfirms _ _ _ _ _ _ _).
Qed.

Lemma receive_root d w w' t :
  receive args int_of_str d w = (Ok tt, w') ->
  BridgeInfo.root_id (bridgeInfo w) = PStr t ->
  BridgeInfo.root_id (bridgeInfo w') = PStr t \/
  exists s, BridgeInfo.root_id (bridgeInfo w') = PStr s /\ String.ltb s t = true.
Proof.
  intros H Hroot. apply receive_ok in H.
  destruct H as (message & i & type & _ & _ & _ & H).
  destruct (py_eq type (PStr "bpdu")).
  - destruct H as (u & w1 & Hu & ->).
    destruct (@update_bpdu_root _ _ _ _ _ _ Hu Hroot) as [H1|H1]; destruct u; auto.
  - destruct H as (p & _ & H). destruct (Port.is_enabled p); [|subst; now left].
    destruct H as (source & n & dest & H). apply sending_data_ok in H.
    destruct H as (_ & _ & _ & _ & _ & _ & _ & -> & _). now left.
Qed.

(** The root of a reachable state is an identifier that is not above the
    bridge's own. *)
Lemma root_below_own w :
  reachable args int_of_str w ->
  exists s, BridgeInfo.root_id (bridgeInfo w) = PStr s /\
            String.leb s (bridge_id args) = true.
Proof.
  induction 1 as [ | d w w' _ IH H | message i u w w' _ IH H
                 | data message i w w' _ IH H | w _ IH | w Hreach IH ].
  - destruct (startup_ports args) as (_ & -> & _). cbn. eexists. split; [reflexivity|].
    apply string_leb_refl.
  - destruct IH as (t & Ht & Hle).
    destruct (@receive_root _ _ _ _ H Ht) as [H1|(s & H1 & Hlt)]; [eauto|].
    exists s. split; [exact H1|]. apply string_ltb_is_leb. eapply string_ltb_leb; eauto.
  - destruct IH as (t & Ht & Hle).
    destruct (@update_bpdu_root _ _ _ _ _ _ H Ht) as [H1|(s & H1 & Hlt)]; [eauto|].
    exists s. split; [exact H1|]. apply string_ltb_is_leb. eapply string_ltb_leb; eauto.
  - apply sending_data_ok in H.
    destruct H as (_ & _ & _ & _ & _ & _ & _ & -> & _). exact IH.
  - exact IH.
  - destruct (reachable_invariant Hreach) as (_ & _ & Hid).
    unfold root_loss, none.
    cbv beta iota zeta delta [bind ret raise gets ask tell modify BridgeInfo.get_unconfirmed
                              BridgeInfo.get_bridge_id].
    destruct (2 <? _); cbn; [|exact IH].
    rewrite Hid. eexists. split; [reflexivity|]. apply string_leb_refl.
Qed.

(** X13.  In every state the bridge can reach, the root it believes in is an
    identifier, a string, that is the bridge's own or below it in the order
    of strings: whatever the frames say, the bridge never takes a root above
    itself, and each control frame leaves the root or lowers it. *)
Theorem root_never_above_own w :
  reachable args int_of_str w ->
  (exists s, BridgeInfo.root_id (bridgeInfo w) = PStr s /\
             String.leb s (bridge_id args) = true) /\
  forall message i u w',
    update_bpdu args int_of_str message i w = (Ok u, w') ->
    BridgeInfo.root_id (bridgeInfo w') = BridgeInfo.root_id (bridgeInfo w) \/
    py_lt (BridgeInfo.root_id (bridgeInfo w')) (BridgeInfo.root_id (bridgeInfo w)) = Ok true.
Proof.
  intros Hreach. destruct (root_below_own Hreach) as (t & Ht & Hle).
  split; [eauto|]. intros message i u w' H. rewrite Ht.
  destruct (@update_bpdu_root _ _ _ _ _ _ H Ht) as [H1|(s & H1 & Hlt)]; [now left|].
  right. rewrite H1. cbn. now rewrite Hlt.
Qed.

End Root.

Section Table.

Variable args : Namespace.
Variable int_of_str : string -> option Z.

(** ** Runs of the program *)

Lemma running_reachable w : running args int_of_str w -> reachable args int_of_str w.
Proof.
  induction 1; [apply reach_startup | eapply reach_receive; eauto
               | now apply reach_announce | now apply reach_root_loss].
Qed.

(** The place [get_port_from_lan_port] gives is that of a Port. *)
Lemma ingress_port w lan i :
  same_attachments args w ->
  index lan (lan_ports args) = Some i ->
  exists q, nth_error (PORTS w) i = Some q /\ attachment q = (i, lan, false).
Proof.
  intros Hsame Hi. destruct (@index_spec _ _ _ Hi) as [Hnth _].
  destruct (@first_port_sends args w lan Hsame (nth_error_In _ _ Hnth))
    as (k & q & Hk & Hq & Ha).
  rewrite Hi in Hk. injection Hk as <-. eauto.
Qed.


Lemma receive_learnt d w w' :
  learnt_on_ingress args w ->
  receive args int_of_str d w = (Ok tt, w') ->
  learnt_on_ingress args w'.
Proof.
  intros Hinv H. apply receive_ok in H.
  destruct H as (message & i & type & _ & Hi & _ & H).
  unfold get_port_from_lan_port in Hi.
  destruct (index (from d) (lan_ports args)) as [i'|] eqn:Ei; [|discriminate].
  injection Hi as ->.
  destruct (py_eq type (PStr "bpdu")).
  - destruct H as (u & w1 & Hu & ->). apply update_bpdu_ok in Hu.
    destruct Hu as (body & r & craw & c & s & b & w2 & _ & _ & _ & _ & _ & _ & Hstep & Hd).
    apply designate_ok in Hd. destruct Hd as (_ & Htab & _).
    assert (Htab2 : ADDR_TABLE w2 = ADDR_TABLE w).
    { destruct b.
      - apply adopt_ok in Hstep. now destruct Hstep as (_ & _ & _ & _ & _ & -> & _).
      - destruct Hstep as [_ [->| ->]]; reflexivity. }
    destruct u; intros k p Hin; cbn in Hin; [destruct Hin|].
    rewrite Htab, Htab2 in Hin. now apply Hinv.
  - destruct H as (p & _ & H). destruct (Port.is_enabled p); [|now subst].
    destruct H as (source & n & dest & H). apply sending_data_ok in H.
    destruct H as (source' & _ & _ & _ & Hh & _ & Htab & _). cbn in Htab.
    intros k q Hin. rewrite Htab in Hin.
    destruct (table_get source' (ADDR_TABLE w)) eqn:E; [now apply Hinv|].
    rewrite (@table_put_absent source' i (ADDR_TABLE w) E) in Hin.
    apply in_app_or in Hin. destruct Hin as [Hin|[Hin|[]]]; [now apply Hinv|].
    injection Hin as <- <-. eauto.
Qed.

Lemma running_learnt w : running args int_of_str w -> learnt_on_ingress args w.
Proof.
  induction 1 as [ | d w w' _ IH H | w _ IH | w _ IH ].
  - destruct (startup_ports args) as (_ & _ & Ht & _). intros k p Hin.
    rewrite Ht in Hin. destruct Hin.
  - eapply receive_learnt; eauto.
  - exact IH.
  - intros k p Hin. apply IH. unfold root_loss, none in Hin.
    cbv beta iota zeta delta [bind ret raise gets ask tell modify BridgeInfo.get_unconfirmed
                              BridgeInfo.get_bridge_id] in Hin.
    destruct (2 <? _) in Hin; exact Hin.
Qed.

(** X14.  In every state of a run, each entry of the table maps a hashable
    key to the place of a Port that exists, that is the first on its LAN,
    so the one the bridge receives that LAN on, and that is not permanently
    disabled. *)
Theorem table_entries_are_ingress_ports w k p :
  running args int_of_str w ->
  In (k, p) (ADDR_TABLE w) ->
  hashable k = true /\
  exists q,
    nth_error (PORTS w) p = Some q /\
    Port.id q = p /\
    get_port_from_lan_port args (Port.lan_port q) = Ok p /\
    Port.permanently_disabled q = false.
Proof.
  intros Hrun Hin. destruct (running_learnt Hrun k p Hin) as [Hh (lan & Hlan)].
  split; [exact Hh|].
  destruct (reachable_invariant (running_reachable Hrun)) as (Hsame & _ & _).
  destruct (ingress_port _ Hsame Hlan) as (q & Hq & Ha).
  injection Ha as Hid Hl Hpd. exists q. unfold get_port_from_lan_port.
  rewrite Hl, Hlan. auto.
Qed.

End Table.

Section Traffic.

Variable args : Namespace.
Variable int_of_str : string -> option Z.

(** ** Well-formed traffic *)









End Traffic.

Section Broadcast.

Variable args : Namespace.
Variable int_of_str : string -> option Z.

(** ** [broadcast_data] *)




(** ** Ill-typed data frames *)

(** X17.  A data frame with all its fields, received on an enabled Port, of
    which one field has a type the handler cannot use.  When [msg_id] is not
    a number, formatting the "Received" line raises [TypeError] and the
    bridge is as it was.  When [msg_id] is a number, the source is new to
    the table and the destination is a list or a dict, the "Received" line
    is printed, the source is learnt and the test of the destination then
    raises [TypeError]: the table keeps the new entry and nothing is sent;
    unless the source is a text that cannot be written to [stdout], in which
    case the "Received" line raises [UnicodeEncodeError] and the bridge is
    as it was. *)
Theorem ill_typed_data_frame d w message type i p source msg_id dest :
  loads d = Some message ->
  get_port_from_lan_port args (from d) = Ok i ->
  py_getitem message "type" = Ok type ->
  py_eq type (PStr "bpdu") = false ->
  nth_error (PORTS w) i = Some p ->
  Port.is_enabled p = true ->
  py_getitem message "source" = Ok source ->
  py_getitem message "msg_id" = Ok msg_id ->
  py_getitem message "dest" = Ok dest ->
  (as_number msg_id = None ->
   receive args int_of_str d w = (Raise TypeError, w)) /\
  (forall n,
     as_number msg_id = Some n ->
     hashable source = true ->
     table_get source (ADDR_TABLE w) = None ->
     hashable dest = false ->
     receive args int_of_str d w =
     if printable source
     then (Raise TypeError,
           with_ADDR_TABLE (fun t => t ++ [ (source, i) ])
             (with_stdout (fun out => out ++ [ Received source n i dest ]) w))
     else (Raise UnicodeEncodeError, w)).
Proof.
  intros Hl Hi Ht Hb Hp Hen Hs Hm Hd.
  unfold receive.
  cbv beta iota zeta delta [bind ret raise lift gets modify print writable port_at].
  rewrite Hl, Hi, Ht, Hb. cbv beta iota. rewrite Hp. cbv beta iota. rewrite Hen, Hs, Hm, Hd.
  unfold py_format_d. split.
  - intros ->. reflexivity.
  - intros n -> Hhs Hnew Hhd.
    assert (Hpd : printable dest = true) by (destruct dest; try discriminate; reflexivity).
    rewrite Hpd, andb_true_r. destruct (printable source); [|reflexivity].
    unfold sending_data, table_contains, table_setitem.
    cbv beta iota zeta delta [bind ret raise lift gets modify print writable port_at].
    rewrite Hs, Hhs, Hd, Hhd. world. rewrite Hnew. cbn [negb]. world.
    rewrite (@table_put_absent source i (ADDR_TABLE w) Hnew). reflexivity.
Qed.

End Broadcast.

(** ** A control frame heard again *)

Lemma replace_nth_same (A : Type) (l : list A) (i : nat) (x : A) :
  nth_error l i = Some x -> replace_nth i x l = l.
Proof.
  revert i; induction l as [|a l IH]; intros [|i] H; cbn in *; try discriminate.
  - now injection H as ->.
  - now rewrite IH.
Qed.

Lemma string_ltb_irrefl s : String.ltb s s = false.
Proof.
  unfold String.ltb. pose proof (String.compare_antisym s s) as H.
  destruct (String.compare s s); try reflexivity; discriminate.
Qed.

Section Repeats.

Variable args : Namespace.
Variable int_of_str : string -> option Z.

(** The test of the last [if] looks at the flags and at [min_cost] only. *)
Lemma designated_ext p q cost rp s i :
  Port.permanently_disabled p = Port.permanently_disabled q ->
  Port.min_cost p = Port.min_cost q ->
  designated args p cost rp s i = designated args q cost rp s i.
Proof.
  unfold designated, Port.is_permanently_disabled, Port.get_min_cost. now intros -> ->.
Qed.

(** On such a Port the last [if] of [update_bpdu] changes nothing. *)
Lemma designate_settled r c s i w :
  settled args r c s i w -> designate args r c s i w = (Ok tt, w).
Proof.
  intros H. unfold designate, set_enabled_at.
  cbv beta iota zeta delta
    [bind ret raise lift gets ask tell modify print writable emit port_at call_port
     BridgeInfo.get_root_id BridgeInfo.get_cost BridgeInfo.get_root_port].
  destruct H as [-> | (p & keep & Hp & Hmin & Hk & Hen)]; [reflexivity|].
  destruct (py_eq r _); [|reflexivity].
  rewrite Hp.
  assert (Hupd : Port.update_min_cost c p = p).
  { unfold Port.update_min_cost. destruct (Z.ltb_spec c (Port.min_cost p)); [lia|reflexivity]. }
  assert (Hw : with_PORTS (replace_nth i p) w = w).
  { unfold with_PORTS. rewrite (@replace_nth_same _ _ _ _ Hp). now destruct w. }
  rewrite Hupd, Hw, Hp, Hk, Hen. now destruct keep.
Qed.

(** After [update_bpdu] the ingress Port is settled for the frame. *)
Lemma designate_settles r c s i w w' :
  designate args r c s i w = (Ok tt, w') -> settled args r c s i w'.
Proof.
  intros H. apply designate_ok in H.
  destruct H as (Hbi & _ & _ & _ & [[Hne _] | [_ (p & p' & keep & Hnth & Hkeep & Hp & Hatt & Hmin & Hen)]]);
    unfold settled; rewrite Hbi; [now left|].
  right. exists p', keep.
  destruct (update_min_cost_spec c p) as (Hm & Ha & _).
  assert (Hpd : Port.permanently_disabled p' = Port.permanently_disabled (Port.update_min_cost c p)).
  { injection Hatt as _ _ H1. injection Ha as _ _ H2. congruence. }
  split; [rewrite Hp; now apply nth_error_replace_nth_eq with (y := p)|].
  split; [lia|].
  split; [now rewrite (@designated_ext _ _ _ _ _ _ Hpd Hmin)|].
  unfold Port.is_enabled. rewrite Hpd.
  destruct (Port.permanently_disabled (Port.update_min_cost c p)) eqn:E.
  - unfold designated, Port.is_permanently_disabled in Hkeep. rewrite E in Hkeep.
    injection Hkeep as <-. apply andb_false_r.
  - rewrite Hen; [apply andb_true_r|]. injection Ha as _ _ H2. congruence.
Qed.

(** X18.  A control frame heard twice in a row.  When [update_bpdu] has
    handled a control frame to the end, in a state the bridge can reach,
    handling the same frame again on the same port returns [False], prints
    nothing and sends nothing: it changes nothing at all when the frame was
    not adopted the first time, and it only sets the counter of unconfirmed
    turns to 0 when it was. *)
Theorem repeated_control_frame message i u w w' :
  reachable args int_of_str w ->
  update_bpdu args int_of_str message i w = (Ok u, w') ->
  update_bpdu args int_of_str message i w' =
  (Ok false, if u then with_bridgeInfo BridgeInfo.reset_unconfirmed w' else w').
Proof.
  intros Hreach H.
  destruct (root_below_own Hreach) as (t & Ht & _).
  apply update_bpdu_steps in H.
  destruct H as (body & r & craw & c & s & b & w1 & Hbody & Hr & Hcraw & Hc & Hs & Hb & Hstep & Hd).
  pose proof Hd as Hset. apply designate_settles in Hset.
  pose proof Hd as Hd'. apply designate_ok in Hd'. destruct Hd' as (Hbi & _).
  unfold update_bpdu.
  cbv beta iota zeta delta
    [bind ret raise lift gets ask tell modify
     BridgeInfo.get_root_id BridgeInfo.get_cost BridgeInfo.get_next_hop
     BridgeInfo.get_bridge_id].
  rewrite Hbody, Hr, Hcraw, Hc, Hs, Hbi.
  destruct b.
  - apply adopt_ok in Hstep. destruct Hstep as (lower & Hlt & -> & Hbi1 & _).
    rewrite Hbi1. cbn [BridgeInfo.root_id BridgeInfo.cost BridgeInfo.next_hop
                       BridgeInfo.bridge_id].
    assert (Hroot1 : py_lt r (if lower then r else BridgeInfo.root_id (bridgeInfo w)) = Ok false /\
                     py_eq r (if lower then r else BridgeInfo.root_id (bridgeInfo w)) = true).
    { destruct lower.
      - rewrite Ht in Hlt. apply py_lt_string in Hlt. destruct Hlt as (x & -> & _).
        cbn. now rewrite string_ltb_irrefl, String.eqb_refl.
      - split; [exact Hlt|]. eapply better_same_root; eauto. }
    destruct Hroot1 as [Hlt1 Heq1].
    unfold better, rbind, reconfirms. rewrite Hlt1, Heq1, (py_eq_refl s).
    assert (E1 : (c + 1 <? c + 1) = false) by apply Z.ltb_irrefl.
    assert (E2 : (c =? c + 1) = false) by (apply Z.eqb_neq; lia).
    rewrite E1, E2, Z.eqb_refl. cbn [andb orb].
    rewrite designate_settled; [reflexivity|].
    destruct Hset as [Hne | (p & keep & Hp & Hmin & Hk & Hen)]; [now left|].
    right. exists p, keep. auto.
  - destruct Hstep as [-> ->].
    set (rho := reconfirms r c s (BridgeInfo.root_id (bridgeInfo w))
                  (BridgeInfo.cost (bridgeInfo w)) (BridgeInfo.next_hop (bridgeInfo w))
                  (BridgeInfo.bridge_id (bridgeInfo w))) in *.
    assert (Hsame : BridgeInfo.root_id (bridgeInfo (if rho then with_bridgeInfo BridgeInfo.reset_unconfirmed w else w)) = BridgeInfo.root_id (bridgeInfo w) /\
                    BridgeInfo.cost (bridgeInfo (if rho then with_bridgeInfo BridgeInfo.reset_unconfirmed w else w)) = BridgeInfo.cost (bridgeInfo w) /\
                    BridgeInfo.next_hop (bridgeInfo (if rho then with_bridgeInfo BridgeInfo.reset_unconfirmed w else w)) = BridgeInfo.next_hop (bridgeInfo w) /\
                    BridgeInfo.bridge_id (bridgeInfo (if rho then with_bridgeInfo BridgeInfo.reset_unconfirmed w else w)) = BridgeInfo.bridge_id (bridgeInfo w))
      by (destruct rho; auto).
    destruct Hsame as (E1 & E2 & E3 & E4). rewrite E1, E2, E3, Hb. cbv beta iota.
    rewrite ?Hbi, ?E4. fold rho. clearbody rho. clear E1 E2 E3 E4.
    destruct rho.
    + assert (Hw' : with_bridgeInfo BridgeInfo.reset_unconfirmed w' = w').
      { destruct w' as [bi ports table0 thread out sentout]. cbn in Hbi. subst bi.
        reflexivity. }
      rewrite Hw'. now rewrite designate_settled.
    + now rewrite designate_settled.
Qed.

End Repeats.

(** * Further examples at bridge 0002 *)

Lemma learnt_h1_running : running bridge_0002 decimal learnt_h1.
Proof.
  apply run_receive with (d := data_frame "h1" "h2" 5001) (w := adopted_0001).
  - apply run_receive with (d := control "0001" "0001" 0 5001) (w := startup bridge_0002).
    + apply run_startup.
    + vm_compute. reflexivity.
  - vm_compute. reflexivity.
Qed.

Lemma datagram_from_unknown_lan_witness :
  receive bridge_0002 decimal nested_too_deep (startup bridge_0002)
  = (Raise RecursionError, startup bridge_0002).
Proof.
  apply (@datagram_from_unknown_lan bridge_0002 decimal nested_too_deep (startup bridge_0002)).
  cbn. intros [H|[H|[H|H]]]; try discriminate H. exact H.
Defined.



Lemma unconfirmed_after_control_frame_witness :
  BridgeInfo.unconfirmed (bridgeInfo two_silent_turns) = 2 /\
  BridgeInfo.unconfirmed
    (bridgeInfo (snd (update_bpdu bridge_0002 decimal (Port.bpdu "0001" (PStr "0001") 0 0) 0
                        two_silent_turns))) = 0.
Proof.
  split; [vm_compute; reflexivity|].
  destruct (@unconfirmed_after_control_frame bridge_0002 decimal
              (Port.bpdu "0001" (PStr "0001") 0 0) 0 false two_silent_turns
              (snd (update_bpdu bridge_0002 decimal (Port.bpdu "0001" (PStr "0001") 0 0) 0
                      two_silent_turns))
              ltac:(vm_compute; reflexivity))
    as (r & c & s & Hadv & Hs & _ & Hu).
  rewrite Hu. vm_compute in Hadv, Hs. injection Hadv as <- <-. injection Hs as <-.
  vm_compute. reflexivity.
Defined.

Lemma control_frame_spares_other_ports_witness :
  exists p',
    nth_error (PORTS second_port_disabled) 0 = Some p' /\
    Port.is_enabled p' = true /\
    Port.min_cost p' = 0.
Proof.
  destruct (proj2 (@control_frame_spares_other_ports bridge_0002 decimal
                     (Port.bpdu "0001" (PStr "0001") 0 0) 1 false adopted_0001
                     second_port_disabled adopted_0001_reachable
                     ltac:(vm_compute; reflexivity))
              0%nat (Port.Build 0 5001 true 0 false)
              ltac:(discriminate) ltac:(vm_compute; reflexivity))
    as (p' & Hp' & _ & _ & Hen & Hmin).
  exists p'. split; [exact Hp'|]. split; [rewrite Hen | rewrite Hmin]; reflexivity.
Defined.

Lemma control_frames_are_not_forwarded_witness :
  wire (snd (receive bridge_0002 decimal (control "0003" "0001" 1 5002) adopted_0001))
  = wire adopted_0001.
Proof.
  destruct (@control_frames_are_not_forwarded bridge_0002 decimal
              (control "0003" "0001" 1 5002) adopted_0001
              (snd (receive bridge_0002 decimal (control "0003" "0001" 1 5002) adopted_0001))
              (Port.bpdu "0003" (PStr "0001") 1 0) (PStr "bpdu")
              ltac:(vm_compute; reflexivity) eq_refl eq_refl eq_refl)
    as (r & c & s & u & news & Hadv & Hs & Hb & Hwire & _ & Hu).
  vm_compute in Hadv, Hs. injection Hadv as <- <-. injection Hs as <-.
  vm_compute in Hb. injection Hb as <-. destruct Hu as [-> _].
  rewrite Hwire. apply app_nil_r.
Defined.

Lemma control_frame_transcript_witness :
  stdout (snd (update_bpdu bridge_0002 decimal (Port.bpdu "0001" (PStr "0001") 0 0) 0
                 (startup bridge_0002))) =
  stdout (startup bridge_0002) ++ [ New_root (PStr "0001") 1; Root_port 0 ].
Proof.
  destruct (@control_frame_transcript bridge_0002 decimal
              (Port.bpdu "0001" (PStr "0001") 0 0) 0 true (startup bridge_0002)
              (snd (update_bpdu bridge_0002 decimal (Port.bpdu "0001" (PStr "0001") 0 0) 0
                      (startup bridge_0002)))
              ltac:(vm_compute; reflexivity))
    as (r & c & lower & Hadv & Hlt & Hout).
  vm_compute in Hadv. injection Hadv as <- <-.
  vm_compute in Hlt. injection Hlt as <-.
  rewrite Hout. vm_compute. reflexivity.
Defined.

Lemma lower_root_with_text_cost_witness :
  update_bpdu bridge_0002 decimal text_cost 0 (startup bridge_0002) =
  (Raise TypeError,
   with_bridgeInfo (BridgeInfo.set_root_id (PStr "0001")) (startup bridge_0002)).
Proof.
  apply (@lower_root_with_text_cost bridge_0002 decimal text_cost
           (PDict [ ("id", PStr "0001"); ("root", PStr "0001"); ("cost", PStr "0") ])
           (PStr "0001") "0" 0 (PStr "0001") 0 (startup bridge_0002));
    vm_compute; reflexivity.
Defined.

Lemma data_frames_are_not_reflected_witness :
  exists news,
    wire (snd (receive bridge_0002 decimal (data_frame "h2" "h1" 5002) learnt_h1))
    = wire learnt_h1 ++ news /\
    forall x, In x news -> sent x = Bytes "payload" /\ to x <> 5002.
Proof.
  destruct (@data_frames_are_not_reflected bridge_0002 decimal
              (data_frame "h2" "h1" 5002) learnt_h1
              (snd (receive bridge_0002 decimal (data_frame "h2" "h1" 5002) learnt_h1))
              (frame "h2" "h1") (PStr "data")
              learnt_h1_reachable ltac:(vm_compute; reflexivity) eq_refl eq_refl eq_refl)
    as (news & Hwire & Hall).
  exists news. split; [exact Hwire|].
  intros x Hx. destruct (Hall x Hx) as (Hsent & Hto & _). split; assumption.
Defined.

Lemma reply_follows_learnt_port_witness :
  wire (snd (sending_data (Bytes "reply") (frame "h2" "h1") 1 first_sight)) =
  wire first_sight ++ [ {| via := 0; to := 5001; sent := Bytes "reply" |} ].
Proof.
  apply (proj2 (@reply_follows_learnt_port
                  (Bytes "payload") (frame "h1" "h2") 0 adopted_0001 first_sight
                  (Bytes "reply") (frame "h2" "h1") 1
                  (snd (sending_data (Bytes "reply") (frame "h2" "h1") 1 first_sight))
                  (PStr "h1") (Port.Build 0 5001 true 0 false)
                  ltac:(vm_compute; reflexivity) eq_refl ltac:(vm_compute; reflexivity)
                  ltac:(vm_compute; reflexivity) eq_refl ltac:(vm_compute; reflexivity))).
Defined.

Lemma first_frame_is_flooded_witness :
  ADDR_TABLE first_sight = [ (PStr "h1", 0%nat) ] /\
  wire first_sight =
    wire adopted_0001 ++ [ {| via := 1; to := 5002; sent := Bytes "payload" |} ].
Proof.
  destruct (@first_frame_is_flooded (Bytes "payload") (frame "h1" "h2") 0 adopted_0001
              first_sight (PStr "h1") (PStr "h2")
              ltac:(vm_compute; reflexivity) ltac:(vm_compute; reflexivity) eq_refl eq_refl)
    as [Htable Hwire].
  split; [exact Htable|]. rewrite Hwire. vm_compute. reflexivity.
Defined.

Lemma root_never_above_own_witness :
  exists s, BridgeInfo.root_id (bridgeInfo adopted_0001) = PStr s /\
            String.leb s "0002" = true.
Proof.
  exact (proj1 (@root_never_above_own bridge_0002 decimal adopted_0001
                  adopted_0001_reachable)).
Defined.


Lemma table_entries_are_ingress_ports_witness :
  hashable (PStr "h1") = true /\
  exists q,
    nth_error (PORTS learnt_h1) 0 = Some q /\
    Port.id q = 0%nat /\
    get_port_from_lan_port bridge_0002 (Port.lan_port q) = Ok 0%nat /\
    Port.permanently_disabled q = false.
Proof.
  apply (@table_entries_are_ingress_ports bridge_0002 decimal learnt_h1 (PStr "h1") 0%nat
           learnt_h1_running).
  vm_compute. left. reflexivity.
Defined.

Lemma repeated_control_frame_witness :
  update_bpdu bridge_0002 decimal peer_0003 1 peer_heard = (Ok false, peer_heard).
Proof.
  apply (@repeated_control_frame bridge_0002 decimal peer_0003 1 false adopted_0001 peer_heard
           adopted_0001_reachable).
  vm_compute. reflexivity.
Defined.



Lemma ill_typed_data_frame_witness :
  receive bridge_0002 decimal text_msg_id (startup bridge_0002)
  = (Raise TypeError, startup bridge_0002).
Proof.
  apply (proj1 (@ill_typed_data_frame bridge_0002 decimal text_msg_id (startup bridge_0002)
                  (PDict [ ("source", PStr "h1"); ("dest", PStr "h2"); ("msg_id", PStr "7");
                           ("type", PStr "data") ])
                  (PStr "data") 0%nat (Port.Build 0 5001 true 0 false)
                  (PStr "h1") (PStr "7") (PStr "h2")
                  eq_refl ltac:(vm_compute; reflexivity) eq_refl eq_refl
                  ltac:(vm_compute; reflexivity) eq_refl eq_refl eq_refl eq_refl)).
  reflexivity.
Defined.
